(** * BCRA eligibility analysis and bureau client (src/utils/bcraApi.ts)

    A shallow embedding of the two pieces of [bcraApi.ts] that carry logic:
    the bureau client ([fetchBCRADebtData], [fetchBCRAHistoricalData]) and the
    eligibility analyzer ([analyzeBCRAEligibility]), together with the parts of
    the JavaScript runtime they call ([String.prototype.replace/substring],
    [parseInt], [new Date(y, m)], [Array.prototype.sort], [Math.max]).

    Conventions of the embedding
    - A JavaScript string is a [string]; one character stands for one UTF-16
      code unit.  Literals holding non-ASCII text are kept as their UTF-8
      bytes; no function below looks inside them.
    - A [number] that the code uses as an integer (situation codes, years,
      months, status codes) is a [Z].
    - [T | null], an optional field and a possibly missing value are [option T].
    - The wall clock read by [new Date()] is an explicit argument ([Clock]).
    - [console.log] calls leave no trace in any value and are dropped. *)

From Stdlib Require Import ZArith List String Ascii Bool Lia Permutation.
From Stdlib Require Import Decimal DecimalString DecimalZ.
Import ListNotations.

Local Open Scope Z_scope.

(* ------------------------------------------------------------------ *)
(** ** The JavaScript runtime functions used by the module              *)
(* ------------------------------------------------------------------ *)

Module JS.

(** Code unit of a character. *)
Definition code (c : ascii) : Z := Z.of_N (N_of_ascii c).

(** [\d] : the ASCII digits only. *)
Definition isDigit (c : ascii) : bool := (48 <=? code c) && (code c <=? 57).

(** [s.replace(/\D/g, '')] : every character that is not a digit is dropped. *)
Fixpoint replaceNonDigits (s : string) : string :=
  match s with
  | EmptyString => EmptyString
  | String c s' =>
      if isDigit c then String c (replaceNonDigits s') else replaceNonDigits s'
  end.

(** [s.substring(start, end)] for [start <= end]; both indices are clamped to
    the length of [s], as in JavaScript. *)
Definition substring (s : string) (start end_ : nat) : string :=
  String.substring start (end_ - start) s.

(** [s.includes(sub)]. *)
Definition includes (s sub : string) : bool :=
  match String.index 0 sub s with Some _ => true | None => false end.

(** [a.localeCompare(b)] as a sign.  The labels compared by the analyzer are
    digit strings, on which the collation order is the order of the code
    units; that order is what is modelled. *)
Definition localeCompare (a b : string) : Z :=
  match String.compare a b with Lt => -1 | Eq => 0 | Gt => 1 end.

(** White space skipped by [parseInt] (the code units below 128). *)
Definition isWhiteSpace (c : ascii) : bool :=
  let n := code c in
  (n =? 9) || (n =? 10) || (n =? 11) || (n =? 12) || (n =? 13) || (n =? 32).

Fixpoint trimStart (s : string) : string :=
  match s with
  | EmptyString => EmptyString
  | String c s' => if isWhiteSpace c then trimStart s' else s
  end.

(** Value of a character as a digit in a radix up to 36. *)
Definition digitValue (c : ascii) : option Z :=
  let n := code c in
  if (48 <=? n) && (n <=? 57) then Some (n - 48)
  else if (97 <=? n) && (n <=? 122) then Some (n - 87)
  else if (65 <=? n) && (n <=? 90) then Some (n - 55)
  else None.

(** The longest prefix of radix-[radix] digits, read most significant first;
    [acc] is [None] until a first digit has been read. *)
Fixpoint parseDigits (radix : Z) (s : string) (acc : option Z) : option Z :=
  match s with
  | EmptyString => acc
  | String c s' =>
      match digitValue c with
      | Some d =>
          if d <? radix
          then parseDigits radix s'
                 (Some (radix * match acc with Some a => a | None => 0 end + d))
          else acc
      | None => acc
      end
  end.

(** [parseInt(s)] with no radix argument: leading white space, an optional
    sign, an optional [0x]/[0X] prefix selecting radix 16, then digits.
    [None] is NaN. *)
Definition parseInt (s : string) : option Z :=
  let s1 := trimStart s in
  let '(sign, s2) :=
    match s1 with
    | String "-"%char r => (-1, r)
    | String "+"%char r => (1, r)
    | _ => (1, s1)
    end in
  let '(radix, s3) :=
    match s2 with
    | String "0"%char (String "x"%char r) => (16, r)
    | String "0"%char (String "X"%char r) => (16, r)
    | _ => (10, s2)
    end in
  match parseDigits radix s3 None with
  | Some v => Some (sign * v)
  | None => None
  end.

(** [`${n}`] for an integer [n]. *)
Definition Number_toString (n : Z) : string :=
  NilZero.string_of_int (Z.to_int n).

(** [Math.max(x, ...xs)].  Both call sites guard against an empty argument
    list, so the model takes the first argument apart. *)
Definition Math_max (x : Z) (xs : list Z) : Z := fold_left Z.max xs x.

(** *** Dates (ECMA-262, Date objects), in a zone with offset 0 *)

Definition msPerDay : Z := 86400000.

Definition DayFromYear (y : Z) : Z :=
  365 * (y - 1970) + (y - 1969) / 4 - (y - 1901) / 100 + (y - 1601) / 400.

Definition InLeapYear (y : Z) : Z :=
  if negb (y mod 4 =? 0) then 0
  else if negb (y mod 100 =? 0) then 1
  else if negb (y mod 400 =? 0) then 0
  else 1.

(** Day number, within its year, of the first day of month [mn] (0..11). *)
Definition monthStart (mn leap : Z) : Z :=
  match mn with
  | 0 => 0
  | 1 => 31
  | 2 => 59 + leap
  | 3 => 90 + leap
  | 4 => 120 + leap
  | 5 => 151 + leap
  | 6 => 181 + leap
  | 7 => 212 + leap
  | 8 => 243 + leap
  | 9 => 273 + leap
  | 10 => 304 + leap
  | _ => 334 + leap
  end.

Definition MakeDay (year month date : Z) : Z :=
  let ym := year + month / 12 in
  let mn := month mod 12 in
  DayFromYear ym + monthStart mn (InLeapYear ym) + date - 1.

Definition MakeDate (day time : Z) : Z := day * msPerDay + time.

(** [None] is the time value NaN of an invalid date. *)
Definition TimeClip (t : Z) : option Z :=
  if 8640000000000000 <? Z.abs t then None else Some t.

(** A [Date] object is its time value. *)
Definition Date := option Z.

(** [new Date(year, monthIndex)]: a year from 0 to 99 means 1900 + year; the
    month index may lie outside 0..11 and carries into the year. *)
Definition newDate (year monthIndex : option Z) : Date :=
  match year, monthIndex with
  | Some y, Some m =>
      let yr := if (0 <=? y) && (y <=? 99) then 1900 + y else y in
      TimeClip (MakeDate (MakeDay yr m 1) 0)
  | _, _ => None
  end.

(** [a >= b] on two dates: a comparison with NaN is false. *)
Definition Date_ge (a b : Date) : bool :=
  match a, b with
  | Some x, Some y => y <=? x
  | _, _ => false
  end.

(** [arr.sort(cmp)]: the stable sort, [x] placed before [y] when
    [cmp x y <= 0]. *)
Section Sort.
Context {A : Type} (cmp : A -> A -> Z).

Fixpoint sortInsert (x : A) (l : list A) : list A :=
  match l with
  | [] => [x]
  | y :: l' => if cmp x y <=? 0 then x :: l else y :: sortInsert x l'
  end.

Definition Array_sort (l : list A) : list A := fold_right sortInsert [] l.
End Sort.

End JS.

(* ------------------------------------------------------------------ *)
(** ** Data model (src/types)                                           *)
(* ------------------------------------------------------------------ *)

(** [BCRAEntity], an entry of the current snapshot. *)
Module Entity.
Record t := {
  entidad : string;
  situacion : Z;
  fechaSit1 : option string;
  monto : Z;
  diasAtrasoPago : Z;
  refinanciaciones : bool;
  recategorizacionOblig : bool;
  situacionJuridica : bool;
  irrecDisposicionTecnica : bool;
  enRevision : bool;
  procesoJud : bool
}.
End Entity.

(** [BCRAPeriod]. *)
Module Period.
Record t := { periodo : string; entidades : list Entity.t }.
End Period.

(** [BCRADebtData]. *)
Module DebtData.
Record t := {
  identificacion : Z;
  denominacion : string;
  periodos : list Period.t
}.
End DebtData.
Definition BCRADebtData : Type := DebtData.t.

(** [BCRAHistoricalEntity]. *)
Record BCRAHistoricalEntity := {
  entidad : string;
  situacion : Z;
  monto : Z;
  enRevision : bool;
  procesoJud : bool
}.

(** [BCRAHistoricalPeriod].  The analyzer reads periods as [any] and tests
    [!periodo.entidades], so a missing entity list is part of the model. *)
Record BCRAHistoricalPeriod := {
  periodo : string;
  entidades : option (list BCRAHistoricalEntity)
}.

(** [BCRAHistoricalData]. *)
Record BCRAHistoricalData := {
  identificacion : Z;
  denominacion : string;
  periodos : list BCRAHistoricalPeriod
}.

Inductive EligibilityStatus := BCRA_APTO | BCRA_NO_APTO | BCRA_PENDING.

(** [BCRAEligibilityAnalysis]. *)
Record BCRAEligibilityAnalysis := {
  isEligible : bool;
  status : EligibilityStatus;
  currentSituation : option Z;
  last6MonthsWorstSituation : option Z;
  last12MonthsWorstSituation : option Z;
  failureReasons : list string;
  analysisDate : string
}.

(** What [new Date()] yields when the analysis runs: [getFullYear()],
    [getMonth()] (0-based) and [toISOString()]. *)
Record Clock := {
  getFullYear : Z;
  getMonth : Z;
  toISOString : string
}.

(* ------------------------------------------------------------------ *)
(** ** The eligibility analyzer                                         *)
(* ------------------------------------------------------------------ *)

(** Assignments to the fields of the [analysis] object. *)
Definition push_failureReason (a : BCRAEligibilityAnalysis) (r : string) :=
  {| isEligible := isEligible a; status := status a;
     currentSituation := currentSituation a;
     last6MonthsWorstSituation := last6MonthsWorstSituation a;
     last12MonthsWorstSituation := last12MonthsWorstSituation a;
     failureReasons := failureReasons a ++ [r];
     analysisDate := analysisDate a |}.

Definition set_currentSituation (a : BCRAEligibilityAnalysis) (v : option Z) :=
  {| isEligible := isEligible a; status := status a;
     currentSituation := v;
     last6MonthsWorstSituation := last6MonthsWorstSituation a;
     last12MonthsWorstSituation := last12MonthsWorstSituation a;
     failureReasons := failureReasons a;
     analysisDate := analysisDate a |}.

Definition set_last6MonthsWorstSituation (a : BCRAEligibilityAnalysis) (v : option Z) :=
  {| isEligible := isEligible a; status := status a;
     currentSituation := currentSituation a;
     last6MonthsWorstSituation := v;
     last12MonthsWorstSituation := last12MonthsWorstSituation a;
     failureReasons := failureReasons a;
     analysisDate := analysisDate a |}.

Definition set_last12MonthsWorstSituation (a : BCRAEligibilityAnalysis) (v : option Z) :=
  {| isEligible := isEligible a; status := status a;
     currentSituation := currentSituation a;
     last6MonthsWorstSituation := last6MonthsWorstSituation a;
     last12MonthsWorstSituation := v;
     failureReasons := failureReasons a;
     analysisDate := analysisDate a |}.

Definition set_isEligible (a : BCRAEligibilityAnalysis) (v : bool) :=
  {| isEligible := v; status := status a;
     currentSituation := currentSituation a;
     last6MonthsWorstSituation := last6MonthsWorstSituation a;
     last12MonthsWorstSituation := last12MonthsWorstSituation a;
     failureReasons := failureReasons a;
     analysisDate := analysisDate a |}.

Definition set_status (a : BCRAEligibilityAnalysis) (v : EligibilityStatus) :=
  {| isEligible := isEligible a; status := v;
     currentSituation := currentSituation a;
     last6MonthsWorstSituation := last6MonthsWorstSituation a;
     last12MonthsWorstSituation := last12MonthsWorstSituation a;
     failureReasons := failureReasons a;
     analysisDate := analysisDate a |}.

(** The helper closure [getWorstSituationForPeriod]. *)
Definition getWorstSituationForPeriod (p : BCRAHistoricalPeriod) : Z :=
  match entidades p with
  | None => 1
  | Some [] => 1
  | Some (e :: es) => JS.Math_max (situacion e) (map situacion es)
  end.

(** The helper closure [isPeriodWithinMonths]; [currentYear] and
    [currentMonth] are the variables it captures. *)
Definition isPeriodWithinMonths (currentYear currentMonth : Z)
    (periodo : string) (months : Z) : bool :=
  let periodoYear := JS.parseInt (JS.substring periodo 0 4) in
  let periodoMonth := JS.parseInt (JS.substring periodo 4 6) in
  let periodoDate := JS.newDate periodoYear (option_map (fun m => m - 1) periodoMonth) in
  let cutoffDate := JS.newDate (Some currentYear) (Some (currentMonth - 1 - months)) in
  JS.Date_ge periodoDate cutoffDate.

(** The three failure reasons built from template literals.  (The variable
    [currentPeriod] of the source is computed and never read.) *)
Definition reasonCurrent (v : Z) : string :=
  ("Situación actual: " ++ JS.Number_toString v ++ " (debe ser ≤ 1)")%string.

Definition reasonLast6 (v : Z) : string :=
  ("Peor situación últimos 6 meses: " ++ JS.Number_toString v ++ " (debe ser ≤ 1)")%string.

Definition reasonLast12 (v : Z) : string :=
  ("Peor situación últimos 12 meses: " ++ JS.Number_toString v ++ " (debe ser ≤ 2)")%string.

Definition analyzeBCRAEligibility (now : Clock)
    (currentData : option BCRADebtData)
    (historicalData : option BCRAHistoricalData) : BCRAEligibilityAnalysis :=
  let analysis :=
    {| isEligible := false;
       status := BCRA_PENDING;
       currentSituation := None;
       last6MonthsWorstSituation := None;
       last12MonthsWorstSituation := None;
       failureReasons := [];
       analysisDate := toISOString now |} in
  match currentData, historicalData with
  | None, None =>
      push_failureReason analysis "No hay datos disponibles en BCRA"
  | _, None =>
      push_failureReason analysis
        "No hay datos históricos disponibles para análisis completo"
  | _, Some historicalData =>
      let sortedPeriods :=
        JS.Array_sort (fun a b => JS.localeCompare (periodo b) (periodo a))
                      (periodos historicalData) in
      match sortedPeriods with
      | [] =>
          push_failureReason analysis
            "No hay períodos disponibles en el historial"
      | mostRecentPeriod :: _ =>
          let currentYear := getFullYear now in
          let currentMonth := getMonth now + 1 in
          (* 1. current situation (most recent period) *)
          let v := getWorstSituationForPeriod mostRecentPeriod in
          let analysis := set_currentSituation analysis (Some v) in
          let analysis :=
            if v >? 1 then push_failureReason analysis (reasonCurrent v)
            else analysis in
          (* 2. last 6 months; [length > 0] holds exactly when the mapped
             list has a first element *)
          let last6MonthsPeriods :=
            filter (fun p => isPeriodWithinMonths currentYear currentMonth (periodo p) 6)
                   sortedPeriods in
          let analysis :=
            match map getWorstSituationForPeriod last6MonthsPeriods with
            | [] => analysis
            | w :: ws =>
                let v := JS.Math_max w ws in
                let analysis := set_last6MonthsWorstSituation analysis (Some v) in
                if v >? 1 then push_failureReason analysis (reasonLast6 v)
                else analysis
            end in
          (* 3. last 12 months *)
          let last12MonthsPeriods :=
            filter (fun p => isPeriodWithinMonths currentYear currentMonth (periodo p) 12)
                   sortedPeriods in
          let analysis :=
            match map getWorstSituationForPeriod last12MonthsPeriods with
            | [] => analysis
            | w :: ws =>
                let v := JS.Math_max w ws in
                let analysis := set_last12MonthsWorstSituation analysis (Some v) in
                if v >? 2 then push_failureReason analysis (reasonLast12 v)
                else analysis
            end in
          (* final eligibility *)
          let analysis :=
            set_isEligible analysis (Nat.eqb (List.length (failureReasons analysis)) 0) in
          set_status analysis
            (if isEligible analysis then BCRA_APTO else BCRA_NO_APTO)
      end
  end.

(* ------------------------------------------------------------------ *)
(** ** The bureau client                                                *)
(* ------------------------------------------------------------------ *)

(** [class BCRAApiError]: [errorMessages] defaults to the empty array. *)
Module ApiError.
Record t := {
  message : string;
  status : Z;
  errorMessages : list string
}.
End ApiError.
Definition BCRAApiError : Type := ApiError.t.

Definition new_BCRAApiError (message : string) (status : Z)
    (errorMessages : option (list string)) : BCRAApiError :=
  {| ApiError.message := message;
     ApiError.status := status;
     ApiError.errorMessages :=
       match errorMessages with Some l => l | None => [] end |}.

(** [BCRAApiResponse] and [BCRAHistoricalApiResponse]: the body of a
    response, generic in the record it may carry. *)
Module ApiResponse.
Record t (R : Type) := {
  status : Z;
  results : option R;
  errorMessages : option (list string)
}.
Arguments status {R}.
Arguments results {R}.
Arguments errorMessages {R}.
End ApiResponse.

(** A value thrown inside the [try] block: a [BCRAApiError], a [TypeError]
    with its message, or anything else. *)
Inductive Thrown :=
| IsBCRAApiError (error : BCRAApiError)
| TypeError (message : string)
| OtherError.

(** What [await fetch(url, ...)] followed by [await response.json()] does:
    it yields the body or throws. *)
Inductive FetchOutcome (R : Type) :=
| Throws (e : Thrown)
| Body (data : ApiResponse.t R).
Arguments Throws {R}.
Arguments Body {R}.

(** The network, as seen from one call: the outcome for each URL. *)
Definition Network (R : Type) : Type := string -> FetchOutcome R.

(** A call returns the list of the URLs it requested, in order, and either
    the error it throws or the record it resolves to. *)
Definition FetchResult (R : Type) : Type := (list string * (BCRAApiError + R))%type.

Definition BCRA_API_BASE_URL : string :=
  "https://api.bcra.gob.ar/CentralDeDeudores/v1.0".

(** [m || d] for an optional array [m] (an array, even empty, is truthy). *)
Definition orElse (m : option (list string)) (d : list string) : list string :=
  match m with Some l => l | None => d end.

Definition fetchBCRADebtData (net : Network BCRADebtData) (cuit : string)
    : FetchResult BCRADebtData :=
  let cleanCuit := JS.replaceNonDigits cuit in
  if negb (Nat.eqb (String.length cleanCuit) 11)
  then ([], inl (new_BCRAApiError "CUIT must have exactly 11 digits" 400
                   (Some ["Parámetro erróneo: Ingresar 11 dígitos para realizar la consulta."%string])))
  else
    let url := (BCRA_API_BASE_URL ++ "/Deudas/" ++ cleanCuit)%string in
    let try : Thrown + BCRADebtData :=
      match net url with
      | Throws e => inl e
      | Body data =>
          match ApiResponse.status data with
          | 200 =>
              match ApiResponse.results data with
              | Some results => inr results
              | None =>
                  inl (IsBCRAApiError
                         (new_BCRAApiError "No results in successful response" 200 None))
              end
          | 400 =>
              inl (IsBCRAApiError
                     (new_BCRAApiError "Invalid CUIT format" 400
                        (Some (orElse (ApiResponse.errorMessages data)
                           ["Parámetro erróneo: Ingresar 11 dígitos para realizar la consulta."%string]))))
          | 404 =>
              inl (IsBCRAApiError
                     (new_BCRAApiError "No data found for the provided CUIT" 404
                        (Some (orElse (ApiResponse.errorMessages data)
                           ["No se encontró datos para la identificación ingresada."%string]))))
          | 500 =>
              inl (IsBCRAApiError
                     (new_BCRAApiError "BCRA server error" 500
                        (Some (orElse (ApiResponse.errorMessages data)
                           ["Se produjo un error al ejecutar la acción."%string]))))
          | st =>
              inl (IsBCRAApiError
                     (new_BCRAApiError
                        ("Unexpected response status: " ++ JS.Number_toString st)%string st
                        (Some (orElse (ApiResponse.errorMessages data) []))))
          end
      end in
    ([url],
     match try with
     | inr results => inr results
     | inl (IsBCRAApiError error) => inl error
     | inl (TypeError msg) =>
         if JS.includes msg "fetch"
         then inl (new_BCRAApiError "Network error: Unable to connect to BCRA API" 0
                     (Some ["Error de conexión con la API del BCRA. Verifique su conexión a internet."%string]))
         else inl (new_BCRAApiError "Unexpected error occurred" 0
                     (Some ["Error inesperado al consultar la API del BCRA."%string]))
     | inl OtherError =>
         inl (new_BCRAApiError "Unexpected error occurred" 0
                (Some ["Error inesperado al consultar la API del BCRA."%string]))
     end).

Definition fetchBCRAHistoricalData (net : Network BCRAHistoricalData) (cuit : string)
    : FetchResult BCRAHistoricalData :=
  let cleanCuit := JS.replaceNonDigits cuit in
  if negb (Nat.eqb (String.length cleanCuit) 11)
  then ([], inl (new_BCRAApiError "CUIT must have exactly 11 digits" 400
                   (Some ["Parámetro erróneo: Ingresar 11 dígitos para realizar la consulta."%string])))
  else
    let url := (BCRA_API_BASE_URL ++ "/Deudas/Historicas/" ++ cleanCuit)%string in
    let try : Thrown + BCRAHistoricalData :=
      match net url with
      | Throws e => inl e
      | Body data =>
          match ApiResponse.status data with
          | 200 =>
              match ApiResponse.results data with
              | Some results => inr results
              | None =>
                  inl (IsBCRAApiError
                         (new_BCRAApiError "No results in successful response" 200 None))
              end
          | 400 =>
              inl (IsBCRAApiError
                     (new_BCRAApiError "Invalid CUIT format" 400
                        (Some (orElse (ApiResponse.errorMessages data)
                           ["Parámetro erróneo: Ingresar 11 dígitos para realizar la consulta."%string]))))
          | 404 =>
              inl (IsBCRAApiError
                     (new_BCRAApiError "No historical data found for the provided CUIT" 404
                        (Some (orElse (ApiResponse.errorMessages data)
                           ["No se encontró datos para la identificación ingresada."%string]))))
          | 500 =>
              inl (IsBCRAApiError
                     (new_BCRAApiError "BCRA server error" 500
                        (Some (orElse (ApiResponse.errorMessages data)
                           ["Se produjo un error al ejecutar la acción."%string]))))
          | st =>
              inl (IsBCRAApiError
                     (new_BCRAApiError
                        ("Unexpected response status: " ++ JS.Number_toString st)%string st
                        (Some (orElse (ApiResponse.errorMessages data) []))))
          end
      end in
    ([url],
     match try with
     | inr results => inr results
     | inl (IsBCRAApiError error) => inl error
     | inl (TypeError msg) =>
         if JS.includes msg "fetch"
         then inl (new_BCRAApiError "Network error: Unable to connect to BCRA API" 0
                     (Some ["Error de conexión con la API del BCRA. Verifique su conexión a internet."%string]))
         else inl (new_BCRAApiError "Unexpected error occurred" 0
                     (Some ["Error inesperado al consultar la API del BCRA."%string]))
     | inl OtherError =>
         inl (new_BCRAApiError "Unexpected error occurred" 0
                (Some ["Error inesperado al consultar la API del BCRA."%string]))
     end).

(* ------------------------------------------------------------------ *)
(** ** Display helpers of bcraApi.ts                                    *)
(* ------------------------------------------------------------------ *)

Module JSExtra.

(** [s.substring(start)]: from [start] to the end of the string. *)
Definition substringFrom (s : string) (start : nat) : string :=
  String.substring start (String.length s - start) s.

(** [parseInt(s, 10)]: with the radix given as 10 no [0x] prefix is
    recognised. *)
Definition parseInt10 (s : string) : option Z :=
  let s1 := JS.trimStart s in
  let '(sign, s2) :=
    match s1 with
    | String "-"%char r => (-1, r)
    | String "+"%char r => (1, r)
    | _ => (1, s1)
    end in
  match JS.parseDigits 10 s2 None with
  | Some v => Some (sign * v)
  | None => None
  end.

(** [Number(c)] for a one-character string that holds a decimal digit. *)
Definition Number_ofDigit (c : ascii) : Z := JS.code c - 48.

End JSExtra.

Definition getSituationDescription (situacion : Z) : string :=
  match situacion with
  | 1 => "Situación Normal"
  | 2 => "Con Seguimiento Especial / Riesgo Bajo"
  | 3 => "Con Problemas / Riesgo Medio"
  | 4 => "Con Alto Riesgo de Insolvencia / Riesgo Alto"
  | 5 => "Irrecuperable"
  | _ => ("Situación " ++ JS.Number_toString situacion)%string
  end.

Definition getSituationColor (situacion : Z) : string :=
  match situacion with
  | 1 => "text-green-700 bg-green-50 border-green-200"
  | 2 => "text-blue-700 bg-blue-50 border-blue-200"
  | 3 => "text-amber-700 bg-amber-50 border-amber-200"
  | 4 => "text-orange-700 bg-orange-50 border-orange-200"
  | 5 => "text-red-700 bg-red-50 border-red-200"
  | _ => "text-gray-700 bg-gray-50 border-gray-200"
  end.

Definition monthNames : list string :=
  ["Enero"; "Febrero"; "Marzo"; "Abril"; "Mayo"; "Junio";
   "Julio"; "Agosto"; "Septiembre"; "Octubre"; "Noviembre"; "Diciembre"]%string.

(** [monthNames[monthIndex] || month]: an index that is NaN, negative or past
    the end gives [undefined]; every name is a non-empty string. *)
Definition formatPeriod (periodo : string) : string :=
  if negb (Nat.eqb (String.length periodo) 6) then periodo
  else
    let year := JS.substring periodo 0 4 in
    let month := JS.substring periodo 4 6 in
    let monthIndex := option_map (fun m => m - 1) (JSExtra.parseInt10 month) in
    let monthName :=
      match monthIndex with
      | Some i =>
          if i <? 0 then month
          else match nth_error monthNames (Z.to_nat i) with
               | Some name => name
               | None => month
               end
      | None => month
      end in
    (monthName ++ " " ++ year)%string.

(* ------------------------------------------------------------------ *)
(** ** CUIT utilities (src/utils/cuit.ts)                               *)
(* ------------------------------------------------------------------ *)

Definition formatCuit (value : string) : string :=
  let digits := JS.replaceNonDigits value in
  let limited := JS.substring digits 0 11 in
  if (String.length limited <=? 2)%nat then limited
  else if (String.length limited <=? 10)%nat then
    (JS.substring limited 0 2 ++ "-" ++ JSExtra.substringFrom limited 2)%string
  else
    (JS.substring limited 0 2 ++ "-" ++ JS.substring limited 2 10 ++ "-"
       ++ JSExtra.substringFrom limited 10)%string.

Definition validateCuitFormat (cuit : string) : bool :=
  let cleanCuit := JS.replaceNonDigits cuit in
  Nat.eqb (String.length cleanCuit) 11.

Definition multipliers : list Z := [5; 4; 3; 2; 7; 6; 5; 4; 3; 2].

(** The loop [for (let i = 0; i < 10; i++) sum += digits[i] * multipliers[i]]
    runs over the indices 0..9; [sum % 11] is the remainder of JavaScript,
    which truncates. *)
Definition validateCuitChecksum (cuit : string) : bool :=
  let cleanCuit := JS.replaceNonDigits cuit in
  if negb (Nat.eqb (String.length cleanCuit) 11) then false
  else
    let digits := map JSExtra.Number_ofDigit (list_ascii_of_string cleanCuit) in
    let sum :=
      fold_left (fun sum i => sum + nth i digits 0 * nth i multipliers 0)
                (seq 0 10) 0 in
    let remainder := Z.rem sum 11 in
    let checkDigit := if remainder <? 2 then remainder else 11 - remainder in
    checkDigit =? nth 10 digits 0.

Definition isValidCuit (cuit : string) : bool :=
  validateCuitFormat cuit && validateCuitChecksum cuit.

Definition cleanCuit (cuit : string) : string := JS.replaceNonDigits cuit.

(* ------------------------------------------------------------------ *)
(** ** The assessment (src/utils/assessment.ts)                         *)
(* ------------------------------------------------------------------ *)

Inductive AssessmentOutcome := eligible | not_eligible | pending.

(** The object [performLoanAssessment] resolves to. *)
Record AssessmentResult := {
  result : AssessmentOutcome;
  clientName : option string;
  bcraData : option BCRADebtData;
  bcraHistoricalData : option BCRAHistoricalData;
  bcraEligibilityStatus : EligibilityStatus;
  bcraEligibilityAnalysis : option BCRAEligibilityAnalysis
}.

(** [mockClientData[key]?.name]. *)
Definition mockClientData (key : string) : option string :=
  if String.eqb key "20123456781" then Some "Juan Pérez"%string
  else if String.eqb key "27987654321" then Some "María González"%string
  else if String.eqb key "23456789012" then Some "Carlos Rodriguez"%string
  else if String.eqb key "20987654321" then Some "Ana Martínez"%string
  else if String.eqb key "27123456789" then Some "Luis García"%string
  else None.

(** [assessmentCache], a [Map<string, any>]: the entries in insertion order. *)
Definition AssessmentCache : Type := list (string * AssessmentResult).

Fixpoint Map_get (m : AssessmentCache) (key : string) : option AssessmentResult :=
  match m with
  | [] => None
  | (k, v) :: m' => if String.eqb k key then Some v else Map_get m' key
  end.

Definition Map_has (m : AssessmentCache) (key : string) : bool :=
  match Map_get m key with Some _ => true | None => false end.

(** [m.set(key, value)]: an existing key keeps its place, a new one goes
    last. *)
Fixpoint Map_set (m : AssessmentCache) (key : string) (value : AssessmentResult)
    : AssessmentCache :=
  match m with
  | [] => [(key, value)]
  | (k, v) :: m' =>
      if String.eqb k key then (k, value) :: m' else (k, v) :: Map_set m' key value
  end.

(** [a || b] on optional strings: [undefined] and the empty string are
    falsy. *)
Definition orString (a b : option string) : option string :=
  match a with
  | Some EmptyString => b
  | Some s => Some s
  | None => b
  end.

(** [performLoanAssessment].  The clock, the two networks and the cache are
    arguments; the call returns the URLs it requested, in order, the object it
    resolves to and the cache it leaves.  The two [setTimeout] delays only
    take time and are dropped. *)
Definition performLoanAssessment (now : Clock)
    (netD : Network BCRADebtData) (netH : Network BCRAHistoricalData)
    (assessmentCache : AssessmentCache) (cuit : string)
    : list string * AssessmentResult * AssessmentCache :=
  let cleanCuit := JS.replaceNonDigits cuit in
  match Map_get assessmentCache cleanCuit with
  | Some cached => ([], cached, assessmentCache)
  | None =>
      let clientData := mockClientData cleanCuit in
      let '(requestsD, outcomeD) := fetchBCRADebtData netD cleanCuit in
      let bcraData := match outcomeD with inr d => Some d | inl _ => None end in
      let '(requestsH, outcomeH) := fetchBCRAHistoricalData netH cleanCuit in
      let bcraHistoricalData := match outcomeH with inr d => Some d | inl _ => None end in
      let bcraEligibilityAnalysis :=
        match bcraData, bcraHistoricalData with
        | None, None => None
        | _, _ => Some (analyzeBCRAEligibility now bcraData bcraHistoricalData)
        end in
      let bcraEligibilityStatus :=
        match bcraEligibilityAnalysis with
        | Some a => status a
        | None => BCRA_PENDING
        end in
      let result :=
        match bcraEligibilityStatus with
        | BCRA_APTO => eligible
        | BCRA_NO_APTO => not_eligible
        | BCRA_PENDING => pending
        end in
      let clientName :=
        orString (orString (option_map DebtData.denominacion bcraData)
                           (option_map denominacion bcraHistoricalData))
                 clientData in
      let assessmentResult :=
        {| result := result;
           clientName := clientName;
           bcraData := bcraData;
           bcraHistoricalData := bcraHistoricalData;
           bcraEligibilityStatus := bcraEligibilityStatus;
           bcraEligibilityAnalysis := bcraEligibilityAnalysis |} in
      (requestsD ++ requestsH, assessmentResult,
       Map_set assessmentCache cleanCuit assessmentResult)
  end.

(** The timer callback [assessmentCache.clear()]. *)
Definition clearCache (assessmentCache : AssessmentCache) : AssessmentCache := [].

(* ------------------------------------------------------------------ *)
(** ** Definitions used to state the properties                         *)
(* ------------------------------------------------------------------ *)

(** The array [sortedPeriods] of the analyzer. *)
Definition sortedPeriods (h : BCRAHistoricalData) : list BCRAHistoricalPeriod :=
  JS.Array_sort (fun a b => JS.localeCompare (periodo b) (periodo a)) (periodos h).

(** [m] is the greatest element of [l]. *)
Definition is_maximum (m : Z) (l : list Z) : Prop :=
  In m l /\ forall x, In x l -> x <= m.

(** The situation codes reported in a period. *)
Definition situations (p : BCRAHistoricalPeriod) : list Z :=
  match entidades p with
  | None => []
  | Some es => map situacion es
  end.

(** Number of digit characters of a string. *)
Definition digitCount (s : string) : nat :=
  List.length (filter JS.isDigit (list_ascii_of_string s)).

(** The error thrown for an identifier that is not made of 11 digits. *)
Definition invalidIdentifier : BCRAApiError :=
  {| ApiError.message := "CUIT must have exactly 11 digits";
     ApiError.status := 400;
     ApiError.errorMessages :=
       ["Parámetro erróneo: Ingresar 11 dígitos para realizar la consulta."%string] |}.

(** The error thrown for a 200 body without results. *)
Definition noResults : BCRAApiError :=
  {| ApiError.message := "No results in successful response";
     ApiError.status := 200;
     ApiError.errorMessages := [] |}.

(** The verdict of an early return with reason [r]. *)
Definition pendingVerdict (now : Clock) (r : string) : BCRAEligibilityAnalysis :=
  {| isEligible := false;
     status := BCRA_PENDING;
     currentSituation := None;
     last6MonthsWorstSituation := None;
     last12MonthsWorstSituation := None;
     failureReasons := [r];
     analysisDate := toISOString now |}.

(** The comparator handed to [sort] by the analyzer. *)
Definition byLabelDescending (a b : BCRAHistoricalPeriod) : Z :=
  JS.localeCompare (periodo b) (periodo a).

(** [p] carries a greatest label among the periods of [l]. *)
Definition most_recent_in (l : list BCRAHistoricalPeriod) (p : BCRAHistoricalPeriod) : Prop :=
  In p l /\ forall q, In q l -> String.leb (periodo q) (periodo p) = true.

(** The periods of [l] that pass the window test of the code, for the clock
    [now] and a window of [n] months. *)
Definition windowPeriods (now : Clock) (n : Z) (l : list BCRAHistoricalPeriod)
    : list BCRAHistoricalPeriod :=
  filter (fun p => isPeriodWithinMonths (getFullYear now) (getMonth now + 1) (periodo p) n) l.

(** The value the code computes for a window: null for an empty window,
    [Math.max] of the worst situations otherwise. *)
Definition windowWorst (now : Clock) (n : Z) (l : list BCRAHistoricalPeriod) : option Z :=
  match map getWorstSituationForPeriod (windowPeriods now n l) with
  | [] => None
  | w :: ws => Some (JS.Math_max w ws)
  end.

(** The failure reasons of one check: none for a null value or a value within
    the threshold, the one reason otherwise. *)
Definition checkReasons (reason : Z -> string) (threshold : Z) (v : option Z) : list string :=
  match v with
  | Some x => if x >? threshold then [reason x] else []
  | None => []
  end.

(** The failure reasons of the three checks, in the order of the code. *)
Definition allReasons (v : Z) (w6 w12 : option Z) : list string :=
  checkReasons reasonCurrent 1 (Some v)
  ++ checkReasons reasonLast6 1 w6
  ++ checkReasons reasonLast12 2 w12.

(** *** Labels and windows, in the words of the specification *)

(** Value of a decimal digit character. *)
Definition digitOf (c : ascii) : option Z :=
  if JS.isDigit c then Some (JS.code c - 48) else None.

(** Year and month of a label that starts with YYYYMM, six decimal digits. *)
Definition labelYearMonth (label : string) : option (Z * Z) :=
  match label with
  | String a (String b (String c (String d (String e (String f _))))) =>
      match digitOf a, digitOf b, digitOf c, digitOf d, digitOf e, digitOf f with
      | Some a, Some b, Some c, Some d, Some e, Some f =>
          Some (1000 * a + 100 * b + 10 * c + d, 10 * e + f)
      | _, _, _, _, _, _ => None
      end
  | _ => None
  end.

(** Months counted from a common origin: month [m] (1 = January) of year [y]. *)
Definition monthNumber (y m : Z) : Z := 12 * y + (m - 1).

(** The month of the evaluation date. *)
Definition evaluationMonth (now : Clock) : Z :=
  monthNumber (getFullYear now) (getMonth now + 1).

(** "Within [n] months": the first of the month of the label is on or after
    (evaluation month - [n]). *)
Definition withinTrailingMonths (now : Clock) (n : Z) (label : string) : bool :=
  match labelYearMonth label with
  | Some (y, m) => evaluationMonth now - n <=? monthNumber y m
  | None => false
  end.

(** The periods of a record that qualify for the window of [n] months. *)
Definition qualifying (now : Clock) (n : Z) (h : BCRAHistoricalData)
    : list BCRAHistoricalPeriod :=
  filter (fun p => withinTrailingMonths now n (periodo p)) (periodos h).

(** Every label of the record starts with six digits. *)
Definition labels_well_formed (h : BCRAHistoricalData) : Prop :=
  forall p, In p (periodos h) -> labelYearMonth (periodo p) <> None.

(** A clock reading such that the evaluation month and the twelve months
    before it are dates that [Date] represents. *)
Definition clock_in_range (now : Clock) : Prop :=
  -271819 <= getFullYear now <= 275759 /\ 0 <= getMonth now <= 11.

(** The year [Date] takes for a year argument [y]. *)
Definition fullYear (y : Z) : Z :=
  if (0 <=? y) && (y <=? 99) then 1900 + y else y.

(** First day (counted from the epoch) of the month of number [i]. *)
Definition firstDay (i : Z) : Z :=
  JS.DayFromYear (i / 12) + JS.monthStart (i mod 12) (JS.InLeapYear (i / 12)).

(** Decimal reading of a string of digits, continuing from [acc]. *)
Fixpoint decimalFrom (acc : Z) (s : string) : Z :=
  match s with
  | EmptyString => acc
  | String c r => decimalFrom (10 * acc + (JS.code c - 48)) r
  end.

Definition allDigits (s : string) : bool :=
  forallb JS.isDigit (list_ascii_of_string s).

(** *** Sample inputs *)

(** A reading of the clock in March 2024. *)
Definition march2024 : Clock :=
  {| getFullYear := 2024; getMonth := 2; toISOString := "2024-03-15T12:00:00.000Z" |}.

Definition entityWith (s : Z) : BCRAHistoricalEntity :=
  {| entidad := "BANCO DE LA NACION ARGENTINA"; situacion := s; monto := 120;
     enRevision := false; procesoJud := false |}.

Definition periodWith (label : string) (codes : list Z) : BCRAHistoricalPeriod :=
  {| periodo := label; entidades := Some (map entityWith codes) |}.

Definition historyOf (l : list BCRAHistoricalPeriod) : BCRAHistoricalData :=
  {| identificacion := 20123456781; denominacion := "PEREZ JUAN"; periodos := l |}.

(** The record of the example of the specification: January 2024 with
    situation 1, December 2023 with situations 2 and 3. *)
Definition sampleHistory : BCRAHistoricalData :=
  historyOf [periodWith "202401" [1]; periodWith "202312" [2; 3]].

(** The same periods in the other order. *)
Definition sampleHistoryReversed : BCRAHistoricalData :=
  historyOf [periodWith "202312" [2; 3]; periodWith "202401" [1]].

(** Two periods under one label, in both orders. *)
Definition duplicateLabel : BCRAHistoricalData :=
  historyOf [periodWith "202401" [1]; periodWith "202401" [3]].

Definition duplicateLabelSwapped : BCRAHistoricalData :=
  historyOf [periodWith "202401" [3]; periodWith "202401" [1]].

(** Every label of the record starts with six digits, the month from 01 to
    12. *)
Definition labels_proper (h : BCRAHistoricalData) : Prop :=
  forall p, In p (periodos h) ->
    exists y m, labelYearMonth (periodo p) = Some (y, m) /\ 1 <= m <= 12.

(** *** The client and the assessment *)

(** The URLs requested for an identifier. *)
Definition debtUrl (cuit : string) : string :=
  (BCRA_API_BASE_URL ++ "/Deudas/" ++ cleanCuit cuit)%string.

Definition historicalUrl (cuit : string) : string :=
  (BCRA_API_BASE_URL ++ "/Deudas/Historicas/" ++ cleanCuit cuit)%string.

(** What a thrown error owes to the outcome of the request: the status of
    the body and the diagnostics the bureau sent; the very error the request
    threw; or status 0 with one diagnostic for any other thrown value. *)
Definition error_explained {R : Type} (outcome : FetchOutcome R)
    (e : BCRAApiError) : Prop :=
  match outcome with
  | Body data =>
      ApiError.status e = ApiResponse.status data
      /\ (ApiResponse.status data = 200 ->
          ApiResponse.results data = None /\ e = noResults)
      /\ (ApiResponse.status data <> 200 ->
          forall l, ApiResponse.errorMessages data = Some l ->
                    ApiError.errorMessages e = l)
  | Throws (IsBCRAApiError e') => e = e'
  | Throws _ =>
      ApiError.status e = 0 /\ List.length (ApiError.errorMessages e) = 1%nat
  end.

(** The outcome that goes with a status. *)
Definition outcomeOf (st : EligibilityStatus) : AssessmentOutcome :=
  match st with
  | BCRA_APTO => eligible
  | BCRA_NO_APTO => not_eligible
  | BCRA_PENDING => pending
  end.

(** An assessment result is coherent: its outcome goes with its status, and
    a status other than PENDING comes from an analysis of a retrieved
    historical record with at least one period, APTO exactly without failure
    reasons. *)
Definition coherent (r : AssessmentResult) : Prop :=
  result r = outcomeOf (bcraEligibilityStatus r)
  /\ (bcraEligibilityStatus r <> BCRA_PENDING ->
      exists h a,
        bcraHistoricalData r = Some h /\ periodos h <> []
        /\ bcraEligibilityAnalysis r = Some a
        /\ status a = bcraEligibilityStatus r
        /\ (bcraEligibilityStatus r = BCRA_APTO <-> failureReasons a = [])).

Definition cache_coherent (cache : AssessmentCache) : Prop :=
  forall key r, Map_get cache key = Some r -> coherent r.

(** The record a [try { x = await fetch...(c) } catch {}] leaves in [x]. *)
Definition fetched {R : Type} (outcome : BCRAApiError + R) : option R :=
  match outcome with inr r => Some r | inl _ => None end.

(** The object built by an assessment that found nothing in the cache, from
    the two records it retrieved. *)
Definition assessmentOf (now : Clock) (key : string)
    (d : option BCRADebtData) (h : option BCRAHistoricalData) : AssessmentResult :=
  let analysis :=
    match d, h with
    | None, None => None
    | _, _ => Some (analyzeBCRAEligibility now d h)
    end in
  let st := match analysis with Some a => status a | None => BCRA_PENDING end in
  {| result := outcomeOf st;
     clientName :=
       orString (orString (option_map DebtData.denominacion d)
                          (option_map denominacion h))
                (mockClientData key);
     bcraData := d;
     bcraHistoricalData := h;
     bcraEligibilityStatus := st;
     bcraEligibilityAnalysis := analysis |}.

(** Sample networks: one that is down, one that answers with a record. *)
Definition netDown {R : Type} : Network R :=
  fun _ => Throws (TypeError "Failed to fetch").

Definition netAnswers {R : Type} (r : R) : Network R :=
  fun _ => Body {| ApiResponse.status := 200;
                   ApiResponse.results := Some r;
                   ApiResponse.errorMessages := None |}.

Definition netNotFound {R : Type} : Network R :=
  fun _ => Body {| ApiResponse.status := 404;
                   ApiResponse.results := None;
                   ApiResponse.errorMessages := Some ["Sin datos"%string] |}.

Definition sampleDebt : BCRADebtData :=
  {| DebtData.identificacion := 20123456786;
     DebtData.denominacion := "PEREZ JUAN";
     DebtData.periodos := [] |}.

(** A record whose only period, February 2024, reports situation 1. *)
Definition cleanHistory : BCRAHistoricalData :=
  historyOf [periodWith "202402" [1]].

(* ------------------------------------------------------------------ *)
(** ** Early returns and the role of the current record                 *)
(* ------------------------------------------------------------------ *)

(** C5. With the historical record absent the verdict is PENDING, not
    eligible, with the three situation fields null and exactly one failure
    reason: the "no data" reason when the current record is absent as well,
    the "no historical data" reason when it is present, whatever it holds. *)
Theorem C5_absent_history_is_pending :
  forall now : Clock,
    analyzeBCRAEligibility now None None
      = pendingVerdict now "No hay datos disponibles en BCRA"
    /\ forall c : BCRADebtData,
         analyzeBCRAEligibility now (Some c) None
           = pendingVerdict now "No hay datos históricos disponibles para análisis completo".
Proof.
  intro now. split; [reflexivity | intro c; reflexivity].
Qed.

(** C8. Two present current records give the same verdict, field by field,
    against the same historical record and the same clock. *)
Theorem C8_current_record_only_by_presence :
  forall (now : Clock) (c1 c2 : BCRADebtData) (h : BCRAHistoricalData),
    analyzeBCRAEligibility now (Some c1) (Some h)
      = analyzeBCRAEligibility now (Some c2) (Some h).
Proof.
  intros now c1 c2 h. reflexivity.
Qed.

(* ------------------------------------------------------------------ *)
(** ** The bureau client                                                *)
(* ------------------------------------------------------------------ *)

Lemma replaceNonDigits_filter :
  forall s, list_ascii_of_string (JS.replaceNonDigits s)
            = filter JS.isDigit (list_ascii_of_string s).
Proof.
  induction s as [|c s IH]; simpl; [reflexivity|].
  destruct (JS.isDigit c); simpl; now rewrite IH.
Qed.

Lemma length_list_ascii : forall s, List.length (list_ascii_of_string s) = String.length s.
Proof.
  induction s as [|c s IH]; simpl; [reflexivity | now rewrite IH].
Qed.

Lemma replaceNonDigits_length :
  forall s, String.length (JS.replaceNonDigits s) = digitCount s.
Proof.
  intro s. unfold digitCount.
  now rewrite <- replaceNonDigits_filter, length_list_ascii.
Qed.

(** C6. An identifier whose digits do not number 11 makes both fetch
    functions throw the status-400 error with its diagnostic message, and the
    list of requested URLs is empty: no network call was made. *)
Theorem C6_invalid_identifier_rejected_before_network :
  forall (netD : Network BCRADebtData) (netH : Network BCRAHistoricalData)
         (cuit : string),
    digitCount cuit <> 11%nat ->
    fetchBCRADebtData netD cuit = ([], inl invalidIdentifier)
    /\ fetchBCRAHistoricalData netH cuit = ([], inl invalidIdentifier).
Proof.
  intros netD netH cuit Hn.
  unfold fetchBCRADebtData, fetchBCRAHistoricalData.
  rewrite replaceNonDigits_length.
  apply Nat.eqb_neq in Hn. rewrite Hn. simpl. split; reflexivity.
Qed.

Lemma C6_witness :
  digitCount "20-1234567-8" <> 11%nat
  /\ fetchBCRADebtData (fun _ => Throws OtherError) "20-1234567-8"
       = ([], inl invalidIdentifier)
  /\ fetchBCRAHistoricalData (fun _ => Throws OtherError) "20-1234567-8"
       = ([], inl invalidIdentifier).
Proof.
  split; [vm_compute; discriminate|].
  apply (C6_invalid_identifier_rejected_before_network
           (fun _ => Throws OtherError) (fun _ => Throws OtherError) "20-1234567-8").
  vm_compute; discriminate.
Defined.

(** C10. With an 11-digit identifier, a body of status 200 that carries no
    results makes both fetch functions throw the error of status 200 with an
    empty list of diagnostics, after the one request. *)
Theorem C10_success_status_without_payload_fails :
  forall (netD : Network BCRADebtData) (netH : Network BCRAHistoricalData)
         (cuit : string)
         (dataD : ApiResponse.t BCRADebtData)
         (dataH : ApiResponse.t BCRAHistoricalData),
    digitCount cuit = 11%nat ->
    netD (BCRA_API_BASE_URL ++ "/Deudas/" ++ JS.replaceNonDigits cuit)%string
      = Body dataD ->
    netH (BCRA_API_BASE_URL ++ "/Deudas/Historicas/" ++ JS.replaceNonDigits cuit)%string
      = Body dataH ->
    ApiResponse.status dataD = 200 -> ApiResponse.results dataD = None ->
    ApiResponse.status dataH = 200 -> ApiResponse.results dataH = None ->
    snd (fetchBCRADebtData netD cuit) = inl noResults
    /\ snd (fetchBCRAHistoricalData netH cuit) = inl noResults.
Proof.
  intros netD netH cuit dataD dataH Hn HD HH HsD HrD HsH HrH.
  unfold fetchBCRADebtData, fetchBCRAHistoricalData.
  rewrite replaceNonDigits_length, Hn. cbv beta iota zeta delta [Nat.eqb negb snd].
  rewrite HD, HH, HsD, HrD, HsH, HrH. split; reflexivity.
Qed.

Lemma C10_witness :
  snd (fetchBCRADebtData
         (fun _ => Body {| ApiResponse.status := 200; ApiResponse.results := None;
                           ApiResponse.errorMessages := None |})
         "20-12345678-1") = inl noResults
  /\ snd (fetchBCRAHistoricalData
         (fun _ => Body {| ApiResponse.status := 200; ApiResponse.results := None;
                           ApiResponse.errorMessages := Some [] |})
         "20-12345678-1") = inl noResults.
Proof.
  apply (C10_success_status_without_payload_fails
           (fun _ => Body {| ApiResponse.status := 200; ApiResponse.results := None;
                             ApiResponse.errorMessages := None |})
           (fun _ => Body {| ApiResponse.status := 200; ApiResponse.results := None;
                             ApiResponse.errorMessages := Some [] |})
           "20-12345678-1"
           {| ApiResponse.status := 200; ApiResponse.results := None;
              ApiResponse.errorMessages := None |}
           {| ApiResponse.status := 200; ApiResponse.results := None;
              ApiResponse.errorMessages := Some [] |});
    reflexivity.
Defined.

(* ------------------------------------------------------------------ *)
(** ** Strings: order of labels, text of the failure reasons            *)
(* ------------------------------------------------------------------ *)

Lemma string_leb_refl : forall a, String.leb a a = true.
Proof.
  intro a. destruct (String.leb_total a a); assumption.
Qed.

Lemma ascii_compare_cases :
  forall a b,
    (Ascii.compare a b = Eq /\ a = b)
    \/ (Ascii.compare a b = Lt /\ (N_of_ascii a < N_of_ascii b)%N)
    \/ (Ascii.compare a b = Gt /\ (N_of_ascii b < N_of_ascii a)%N).
Proof.
  intros a b. unfold Ascii.compare.
  destruct (N.compare_spec (N_of_ascii a) (N_of_ascii b)) as [E|L|G].
  - left. split; [reflexivity|].
    rewrite <- (ascii_N_embedding a), <- (ascii_N_embedding b). now rewrite E.
  - right; left; now split.
  - right; right; now split.
Qed.

Lemma string_leb_trans :
  forall a b c,
    String.leb a b = true -> String.leb b c = true -> String.leb a c = true.
Proof.
  unfold String.leb.
  induction a as [|x a IH]; intros [|y b] [|z c]; simpl; try easy.
  destruct (ascii_compare_cases x y) as [[E1 ->]|[[E1 L1]|[E1 L1]]];
    destruct (ascii_compare_cases y z) as [[E2 E2']|[[E2 L2]|[E2 L2]]];
    try subst z; rewrite ?E1, ?E2; try easy.
  - apply IH.
  - intros _ _.
    destruct (ascii_compare_cases x z) as [[_ ->]|[[E3 _]|[_ L3]]]; [lia | now rewrite E3 | lia].
Qed.

Lemma localeCompare_le :
  forall a b, (JS.localeCompare a b <=? 0) = String.leb a b.
Proof.
  intros a b. unfold JS.localeCompare, String.leb.
  destruct (String.compare a b); reflexivity.
Qed.

Lemma string_append_length :
  forall a b, String.length (a ++ b)%string = (String.length a + String.length b)%nat.
Proof.
  induction a as [|c a IH]; intro b; simpl; [reflexivity | now rewrite IH].
Qed.

Lemma string_append_cancel_r :
  forall t a b, (a ++ t)%string = (b ++ t)%string -> a = b.
Proof.
  intros t. induction a as [|x a IH]; intros [|y b] H; simpl in H.
  - reflexivity.
  - apply (f_equal String.length) in H. simpl in H.
    rewrite string_append_length in H. lia.
  - apply (f_equal String.length) in H. simpl in H.
    rewrite string_append_length in H. lia.
  - injection H as -> H. f_equal. now apply IH.
Qed.

Lemma to_int_not_nil : forall z, Z.to_int z <> Pos Nil /\ Z.to_int z <> Neg Nil.
Proof.
  intro z. split; intro H; pose proof (DecimalZ.of_to z) as E; rewrite H in E;
    simpl in E; subst z; discriminate H.
Qed.

Lemma Number_toString_inj :
  forall a b, JS.Number_toString a = JS.Number_toString b -> a = b.
Proof.
  unfold JS.Number_toString. intros a b H.
  apply (f_equal NilZero.int_of_string) in H.
  destruct (to_int_not_nil a), (to_int_not_nil b).
  rewrite !NilZero.isi in H by assumption.
  injection H as H. now apply DecimalZ.to_int_inj.
Qed.

Lemma reasonCurrent_inj : forall a b, reasonCurrent a = reasonCurrent b -> a = b.
Proof.
  unfold reasonCurrent. intros a b H. simpl in H.
  repeat (injection H as H).
  now apply Number_toString_inj, (string_append_cancel_r _ _ _ H).
Qed.

Lemma reasonLast6_inj : forall a b, reasonLast6 a = reasonLast6 b -> a = b.
Proof.
  unfold reasonLast6. intros a b H. simpl in H.
  repeat (injection H as H).
  now apply Number_toString_inj, (string_append_cancel_r _ _ _ H).
Qed.

Lemma reasonLast12_inj : forall a b, reasonLast12 a = reasonLast12 b -> a = b.
Proof.
  unfold reasonLast12. intros a b H. simpl in H.
  repeat (injection H as H).
  now apply Number_toString_inj, (string_append_cancel_r _ _ _ H).
Qed.

Lemma reasonCurrent_not_6 : forall a b, reasonCurrent a <> reasonLast6 b.
Proof. unfold reasonCurrent, reasonLast6. intros a b H. simpl in H. discriminate H. Qed.

Lemma reasonCurrent_not_12 : forall a b, reasonCurrent a <> reasonLast12 b.
Proof. unfold reasonCurrent, reasonLast12. intros a b H. simpl in H. discriminate H. Qed.

Lemma reasonLast6_not_12 : forall a b, reasonLast6 a <> reasonLast12 b.
Proof. unfold reasonLast6, reasonLast12. intros a b H. simpl in H. discriminate H. Qed.

(* ------------------------------------------------------------------ *)
(** ** Sorting                                                          *)
(* ------------------------------------------------------------------ *)

Section SortFacts.
Context {A : Type} (cmp : A -> A -> Z).

Lemma sortInsert_perm : forall x l, Permutation (x :: l) (JS.sortInsert cmp x l).
Proof.
  intros x l. induction l as [|y l IH]; simpl.
  - apply Permutation_refl.
  - destruct (cmp x y <=? 0).
    + apply Permutation_refl.
    + eapply perm_trans; [apply perm_swap | apply perm_skip, IH].
Qed.

Lemma Array_sort_perm : forall l, Permutation l (JS.Array_sort cmp l).
Proof.
  induction l as [|x l IH]; simpl.
  - apply perm_nil.
  - eapply perm_trans; [apply perm_skip, IH | apply sortInsert_perm].
Qed.

Lemma Array_sort_nil : forall l, JS.Array_sort cmp l = [] -> l = [].
Proof.
  intros l H. pose proof (Array_sort_perm l) as P. rewrite H in P.
  now apply Permutation_sym, Permutation_nil in P.
Qed.

End SortFacts.

(** The first element of the sorted array carries a greatest label. *)
Lemma sort_head_most_recent :
  forall l p rest,
    JS.Array_sort byLabelDescending l = p :: rest -> most_recent_in l p.
Proof.
  induction l as [|x l IH]; intros p rest H; [discriminate H|].
  simpl in H.
  destruct (JS.Array_sort byLabelDescending l) as [|y s] eqn:E.
  - apply Array_sort_nil in E. subst l. simpl in H. injection H as <- _.
    split; [now left|]. intros q [<-|[]]. apply string_leb_refl.
  - destruct (IH y s eq_refl) as [Hin Hmax].
    simpl in H. unfold byLabelDescending at 1 in H.
    rewrite localeCompare_le in H.
    destruct (String.leb (periodo y) (periodo x)) eqn:L.
    + injection H as <- _. split; [now left|].
      intros q [<-|Hq]; [apply string_leb_refl|].
      eapply string_leb_trans; [apply Hmax, Hq | exact L].
    + injection H as <- _. split; [now right|].
      intros q [<-|Hq]; [|now apply Hmax].
      destruct (String.leb_total (periodo x) (periodo y)) as [T|T]; [exact T|congruence].
Qed.

(* ------------------------------------------------------------------ *)
(** ** The verdict past the early returns                               *)
(* ------------------------------------------------------------------ *)

(** With a first sorted period [p] the verdict is the record below: the three
    checks contribute their reasons in order. *)
Lemma analyze_past_early_returns :
  forall now c h p rest,
    sortedPeriods h = p :: rest ->
    let v := getWorstSituationForPeriod p in
    let w6 := windowWorst now 6 (p :: rest) in
    let w12 := windowWorst now 12 (p :: rest) in
    let reasons := allReasons v w6 w12 in
    analyzeBCRAEligibility now c (Some h)
    = {| isEligible := Nat.eqb (List.length reasons) 0;
         status := if Nat.eqb (List.length reasons) 0 then BCRA_APTO else BCRA_NO_APTO;
         currentSituation := Some v;
         last6MonthsWorstSituation := w6;
         last12MonthsWorstSituation := w12;
         failureReasons := reasons;
         analysisDate := toISOString now |}.
Proof.
  intros now c h p rest Hs v w6 w12 reasons.
  unfold analyzeBCRAEligibility. fold (sortedPeriods h). rewrite Hs.
  subst reasons w6 w12. unfold allReasons, windowWorst, windowPeriods, checkReasons. fold v.
  destruct c;
    destruct (v >? 1);
    destruct (map getWorstSituationForPeriod
                (filter (fun q => isPeriodWithinMonths (getFullYear now) (getMonth now + 1) (periodo q) 6)
                        (p :: rest))) as [|a6 l6];
    destruct (map getWorstSituationForPeriod
                (filter (fun q => isPeriodWithinMonths (getFullYear now) (getMonth now + 1) (periodo q) 12)
                        (p :: rest))) as [|a12 l12];
    cbv beta iota zeta;
    try destruct (JS.Math_max a6 l6 >? 1);
    try destruct (JS.Math_max a12 l12 >? 2);
    reflexivity.
Qed.

Lemma sortedPeriods_cons :
  forall h, periodos h <> [] -> exists p rest, sortedPeriods h = p :: rest.
Proof.
  intros h Hne. destruct (sortedPeriods h) as [|p rest] eqn:E.
  - apply Array_sort_nil in E. contradiction.
  - now exists p, rest.
Qed.

Lemma length_zero_nil : forall (A : Type) (l : list A), Nat.eqb (List.length l) 0 = true <-> l = [].
Proof.
  intros A [|x l]; simpl; split; intro H; try reflexivity; discriminate H.
Qed.

(** C4. With a present historical record that has a period, the verdict is
    eligible exactly when it carries no failure reason, its status is APTO
    when eligible and NO_APTO otherwise, and it is never PENDING. *)
Theorem C4_verdict_follows_failure_reasons :
  forall (now : Clock) (c : option BCRADebtData) (h : BCRAHistoricalData),
    periodos h <> [] ->
    let a := analyzeBCRAEligibility now c (Some h) in
    (isEligible a = true <-> failureReasons a = [])
    /\ status a = (if isEligible a then BCRA_APTO else BCRA_NO_APTO)
    /\ status a <> BCRA_PENDING.
Proof.
  intros now c h Hne a.
  destruct (sortedPeriods_cons h Hne) as (p & rest & Hs).
  subst a. rewrite (analyze_past_early_returns now c h p rest Hs).
  cbv beta zeta. cbn [isEligible status failureReasons].
  split; [apply length_zero_nil|]. split; [reflexivity|].
  destruct (Nat.eqb _ 0); discriminate.
Qed.

Lemma C4_witness :
  let a := analyzeBCRAEligibility march2024 None (Some sampleHistory) in
  (isEligible a = true <-> failureReasons a = [])
  /\ status a = (if isEligible a then BCRA_APTO else BCRA_NO_APTO)
  /\ status a <> BCRA_PENDING.
Proof.
  apply (C4_verdict_follows_failure_reasons march2024 None sampleHistory).
  simpl. discriminate.
Defined.

(** Past step 4 is the only place where the status leaves PENDING. *)
Lemma pending_only_on_early_return :
  forall now c oh,
    status (analyzeBCRAEligibility now c oh) = BCRA_PENDING ->
    oh = None \/ exists h, oh = Some h /\ periodos h = [].
Proof.
  intros now c [h|] H; [right | now left].
  exists h. split; [reflexivity|].
  destruct (periodos h) as [|x l] eqn:E; [reflexivity|].
  exfalso. assert (Hne : periodos h <> []) by (rewrite E; discriminate).
  destruct (sortedPeriods_cons h Hne) as (p & rest & Hs).
  rewrite (analyze_past_early_returns now c h p rest Hs) in H.
  cbv beta zeta in H. cbn [status] in H.
  destruct (Nat.eqb _ 0); discriminate H.
Qed.

(* ------------------------------------------------------------------ *)
(** ** Worst situations and maxima                                      *)
(* ------------------------------------------------------------------ *)

Lemma fold_left_max_ge : forall l x, x <= fold_left Z.max l x.
Proof.
  induction l as [|y l IH]; intro x; simpl; [lia|].
  specialize (IH (Z.max x y)). lia.
Qed.

Lemma Math_max_is_maximum : forall x xs, is_maximum (JS.Math_max x xs) (x :: xs).
Proof.
  unfold JS.Math_max, is_maximum. intros x xs. revert x.
  induction xs as [|y xs IH]; intro x; simpl.
  - split; [now left|]. intros z [<-|[]]. lia.
  - destruct (IH (Z.max x y)) as [Hin Hmax]. split.
    + destruct Hin as [E|Hin]; [|now right; right].
      rewrite <- E. destruct (Z.max_spec x y) as [[_ ->]|[_ ->]]; [right; now left | now left].
    + intros z [<-|[<-|Hz]].
      * specialize (Hmax (Z.max x y) (or_introl eq_refl)). lia.
      * specialize (Hmax (Z.max x y) (or_introl eq_refl)). lia.
      * apply Hmax. now right.
Qed.

Lemma is_maximum_unique : forall l a b, is_maximum a l -> is_maximum b l -> a = b.
Proof.
  intros l a b [Ha Ha'] [Hb Hb']. specialize (Ha' b Hb). specialize (Hb' a Ha). lia.
Qed.

(** The worst situation of a period: 1 without entities, the greatest
    situation code otherwise. *)
Lemma getWorstSituationForPeriod_spec :
  forall p,
    (situations p = [] -> getWorstSituationForPeriod p = 1)
    /\ (situations p <> [] -> is_maximum (getWorstSituationForPeriod p) (situations p)).
Proof.
  intro p. unfold getWorstSituationForPeriod, situations.
  destruct (entidades p) as [[|e es]|]; simpl; split; try easy.
  intros _. apply Math_max_is_maximum.
Qed.

(** Membership in the reasons of one check. *)
Lemma in_checkReasons :
  forall reason t v s,
    In s (checkReasons reason t v) <-> exists x, v = Some x /\ t < x /\ s = reason x.
Proof.
  intros reason t [x|] s; unfold checkReasons.
  - destruct (Z.gtb_spec x t) as [G|G]; simpl; split.
    + intros [<-|[]]. now exists x.
    + intros (y & [= <-] & _ & ->). now left.
    + intros [].
    + intros (y & [= <-] & L & _). lia.
  - simpl. split; [intros [] | intros (y & [=] & _)].
Qed.

Section Reasons.
Variables (v : Z) (w6 w12 : option Z).

Lemma in_reasons_current :
  forall k, In (reasonCurrent k) (allReasons v w6 w12) <-> k = v /\ 1 < v.
Proof.
  intro k. unfold allReasons. rewrite !in_app_iff, !in_checkReasons. split.
  - intros [(x & [= <-] & L & E)|[(x & _ & _ & E)|(x & _ & _ & E)]].
    + apply reasonCurrent_inj in E. now subst.
    + now apply reasonCurrent_not_6 in E.
    + now apply reasonCurrent_not_12 in E.
  - intros [-> L]. left. now exists v.
Qed.

Lemma in_reasons_last6 :
  forall k, In (reasonLast6 k) (allReasons v w6 w12) <-> w6 = Some k /\ 1 < k.
Proof.
  intro k. unfold allReasons. rewrite !in_app_iff, !in_checkReasons. split.
  - intros [(x & _ & _ & E)|[(x & -> & L & E)|(x & _ & _ & E)]].
    + symmetry in E. now apply reasonCurrent_not_6 in E.
    + apply reasonLast6_inj in E. now subst.
    + now apply reasonLast6_not_12 in E.
  - intros [-> L]. right; left. now exists k.
Qed.

Lemma in_reasons_last12 :
  forall k, In (reasonLast12 k) (allReasons v w6 w12) <-> w12 = Some k /\ 2 < k.
Proof.
  intro k. unfold allReasons. rewrite !in_app_iff, !in_checkReasons. split.
  - intros [(x & _ & _ & E)|[(x & _ & _ & E)|(x & -> & L & E)]].
    + symmetry in E. now apply reasonCurrent_not_12 in E.
    + symmetry in E. now apply reasonLast6_not_12 in E.
    + apply reasonLast12_inj in E. now subst.
  - intros [-> L]. right; right. now exists k.
Qed.

End Reasons.

(* ------------------------------------------------------------------ *)
(** ** The current check                                                *)
(* ------------------------------------------------------------------ *)

(** C3. With a present historical record that has a period, the current
    situation is the worst situation of the first sorted period, a period
    that carries a greatest label; the worst situation of a period is 1 when
    it reports no entity and the greatest of its situation codes otherwise;
    the reason of the current check is among the failure reasons exactly for
    a current situation above 1, and cites that value. *)
Theorem C3_current_situation_of_most_recent_period :
  forall (now : Clock) (c : option BCRADebtData) (h : BCRAHistoricalData),
    periodos h <> [] ->
    let a := analyzeBCRAEligibility now c (Some h) in
    exists p,
      hd_error (sortedPeriods h) = Some p
      /\ most_recent_in (periodos h) p
      /\ currentSituation a = Some (getWorstSituationForPeriod p)
      /\ (situations p = [] -> getWorstSituationForPeriod p = 1)
      /\ (situations p <> [] -> is_maximum (getWorstSituationForPeriod p) (situations p))
      /\ (forall k, In (reasonCurrent k) (failureReasons a)
                    <-> k = getWorstSituationForPeriod p /\ 1 < k).
Proof.
  intros now c h Hne a.
  destruct (sortedPeriods_cons h Hne) as (p & rest & Hs).
  exists p. subst a. rewrite (analyze_past_early_returns now c h p rest Hs).
  cbv beta zeta. cbn [currentSituation failureReasons].
  rewrite Hs. split; [reflexivity|].
  split; [apply (sort_head_most_recent _ _ rest), Hs|].
  split; [reflexivity|].
  destruct (getWorstSituationForPeriod_spec p) as [H0 H1].
  split; [exact H0|]. split; [exact H1|].
  intro k. rewrite in_reasons_current. split; intros [-> L]; now split.
Qed.

Lemma C3_witness :
  let a := analyzeBCRAEligibility march2024 None (Some sampleHistoryReversed) in
  exists p,
    hd_error (sortedPeriods sampleHistoryReversed) = Some p
    /\ most_recent_in (periodos sampleHistoryReversed) p
    /\ currentSituation a = Some (getWorstSituationForPeriod p)
    /\ (situations p = [] -> getWorstSituationForPeriod p = 1)
    /\ (situations p <> [] -> is_maximum (getWorstSituationForPeriod p) (situations p))
    /\ (forall k, In (reasonCurrent k) (failureReasons a)
                  <-> k = getWorstSituationForPeriod p /\ 1 < k).
Proof.
  apply (C3_current_situation_of_most_recent_period march2024 None sampleHistoryReversed).
  simpl. discriminate.
Defined.

(* ------------------------------------------------------------------ *)
(** ** Order of the periods in the input                                *)
(* ------------------------------------------------------------------ *)

Lemma most_recent_in_perm :
  forall l l' p, Permutation l l' -> most_recent_in l p -> most_recent_in l' p.
Proof.
  intros l l' p P [Hin Hmax]. split.
  - now apply (Permutation_in _ P).
  - intros q Hq. apply Hmax. now apply (Permutation_in _ (Permutation_sym P)).
Qed.

Lemma currentSituation_no_period :
  forall now c h,
    periodos h = [] -> currentSituation (analyzeBCRAEligibility now c (Some h)) = None.
Proof.
  intros now c h E. unfold analyzeBCRAEligibility. rewrite E. now destruct c.
Qed.

Lemma currentSituation_first_sorted :
  forall now c h p rest,
    sortedPeriods h = p :: rest ->
    currentSituation (analyzeBCRAEligibility now c (Some h))
      = Some (getWorstSituationForPeriod p).
Proof.
  intros now c h p rest Hs.
  now rewrite (analyze_past_early_returns now c h p rest Hs).
Qed.

(** Among the periods that carry the label of the first sorted period, that
    period is the first of the input: the sort is stable. *)
Lemma sort_head_first_of_ties :
  forall l p rest,
    JS.Array_sort byLabelDescending l = p :: rest ->
    exists l1 l2,
      l = l1 ++ p :: l2 /\ forall q, In q l1 -> periodo q <> periodo p.
Proof.
  induction l as [|x l IH]; intros p rest H; [discriminate H|].
  simpl in H.
  destruct (JS.Array_sort byLabelDescending l) as [|y s] eqn:E.
  - simpl in H. injection H as <- _. exists [], l. split; [reflexivity|].
    intros q [].
  - destruct (IH y s eq_refl) as (l1 & l2 & -> & Hl1).
    simpl in H. unfold byLabelDescending at 1 in H.
    rewrite localeCompare_le in H.
    destruct (String.leb (periodo y) (periodo x)) eqn:L.
    + injection H as <- _. exists [], (l1 ++ y :: l2). split; [reflexivity|].
      intros q [].
    + injection H as <- _. exists (x :: l1), l2. split; [reflexivity|].
      intros q [<-|Hq]; [|now apply Hl1].
      intro Eq. rewrite Eq, string_leb_refl in L. discriminate L.
Qed.

(** C7, as the code has it.  The period whose worst situation becomes the
    current situation is the first period of the input array among those
    that carry the greatest label.  So, the periods of two records being the
    same up to their order, both records get the same current situation
    provided the periods that carry the greatest label agree on their worst
    situation (as they do when no label occurs twice). *)
Theorem C7_current_situation_independent_of_order :
  forall (now : Clock) (c : option BCRADebtData) (h : BCRAHistoricalData),
    (periodos h <> [] ->
     exists l1 p l2,
       periodos h = l1 ++ p :: l2
       /\ most_recent_in (periodos h) p
       /\ (forall q, In q l1 -> periodo q <> periodo p)
       /\ currentSituation (analyzeBCRAEligibility now c (Some h))
          = Some (getWorstSituationForPeriod p))
    /\ (forall h' : BCRAHistoricalData,
          Permutation (periodos h) (periodos h') ->
          (forall p q,
              most_recent_in (periodos h) p -> most_recent_in (periodos h) q ->
              getWorstSituationForPeriod p = getWorstSituationForPeriod q) ->
          currentSituation (analyzeBCRAEligibility now c (Some h))
            = currentSituation (analyzeBCRAEligibility now c (Some h'))).
Proof.
  intros now c h. split.
  - intro Hne. destruct (sortedPeriods_cons h Hne) as (p & rest & Hs).
    destruct (sort_head_first_of_ties _ _ _ Hs) as (l1 & l2 & El & Hl1).
    exists l1, p, l2. split; [exact El|].
    split; [apply (sort_head_most_recent _ _ rest), Hs|].
    split; [exact Hl1|].
    apply (currentSituation_first_sorted now c h p rest Hs).
  - intros h' P Hagree.
    destruct (sortedPeriods h) as [|p rest] eqn:Hs;
      destruct (sortedPeriods h') as [|p' rest'] eqn:Hs'.
    + apply Array_sort_nil in Hs, Hs'. now rewrite !currentSituation_no_period.
    + apply Array_sort_nil in Hs. rewrite Hs in P. apply Permutation_nil in P.
      unfold sortedPeriods in Hs'. rewrite P in Hs'. discriminate Hs'.
    + apply Array_sort_nil in Hs'. rewrite Hs' in P.
      apply Permutation_sym, Permutation_nil in P.
      unfold sortedPeriods in Hs. rewrite P in Hs. discriminate Hs.
    + rewrite (currentSituation_first_sorted now c h p rest Hs).
      rewrite (currentSituation_first_sorted now c h' p' rest' Hs').
      f_equal. apply Hagree.
      * apply (sort_head_most_recent _ _ rest), Hs.
      * apply (most_recent_in_perm _ _ _ (Permutation_sym P)).
        apply (sort_head_most_recent _ _ rest'), Hs'.
Qed.

Lemma C7_witness :
  (exists l1 p l2,
      periodos duplicateLabelSwapped = l1 ++ p :: l2
      /\ most_recent_in (periodos duplicateLabelSwapped) p
      /\ (forall q, In q l1 -> periodo q <> periodo p)
      /\ currentSituation (analyzeBCRAEligibility march2024 None (Some duplicateLabelSwapped))
         = Some (getWorstSituationForPeriod p))
  /\ currentSituation (analyzeBCRAEligibility march2024 None (Some sampleHistory))
     = currentSituation (analyzeBCRAEligibility march2024 None (Some sampleHistoryReversed)).
Proof.
  split.
  - apply (proj1 (C7_current_situation_independent_of_order march2024 None
                    duplicateLabelSwapped)).
    simpl. discriminate.
  - apply (proj2 (C7_current_situation_independent_of_order march2024 None
                    sampleHistory) sampleHistoryReversed).
    + simpl. apply perm_swap.
    + intros p q [Hp Mp] [Hq Mq]. simpl in Hp, Hq.
      destruct Hp as [<-|[<-|[]]]; destruct Hq as [<-|[<-|[]]]; try reflexivity.
      * specialize (Mq (periodWith "202401" [1]) (or_introl eq_refl)).
        vm_compute in Mq. discriminate Mq.
      * specialize (Mp (periodWith "202401" [1]) (or_introl eq_refl)).
        vm_compute in Mp. discriminate Mp.
Defined.

(** C7, as stated, fails: two periods under the label 202401, one with
    situation 1 and one with situation 3, give the current situation 1 in one
    order and 3 in the other (the sort is stable, so the first of the two
    stays first). *)
Lemma C7_counterexample :
  Permutation (periodos duplicateLabel) (periodos duplicateLabelSwapped)
  /\ currentSituation (analyzeBCRAEligibility march2024 None (Some duplicateLabel)) = Some 1
  /\ currentSituation (analyzeBCRAEligibility march2024 None (Some duplicateLabelSwapped)) = Some 3.
Proof.
  split; [apply perm_swap|]. split; vm_compute; reflexivity.
Qed.

(** With pairwise distinct labels the side condition of C7 holds. *)
Lemma distinct_labels_agree :
  forall l,
    NoDup (map periodo l) ->
    forall p q, most_recent_in l p -> most_recent_in l q ->
                getWorstSituationForPeriod p = getWorstSituationForPeriod q.
Proof.
  intros l ND p q [Hp Mp] [Hq Mq].
  assert (E : periodo p = periodo q)
    by (apply String.leb_antisym; [apply Mq, Hp | apply Mp, Hq]).
  assert (p = q); [|now subst].
  clear Mp Mq. induction l as [|x l IH]; [destruct Hp|].
  simpl in ND. inversion ND as [|? ? Hx ND']; subst.
  destruct Hp as [->|Hp], Hq as [->|Hq]; try reflexivity.
  - exfalso. apply Hx. rewrite E. now apply in_map.
  - exfalso. apply Hx. rewrite <- E. now apply in_map.
  - now apply IH.
Qed.

(* ------------------------------------------------------------------ *)
(** ** The calendar                                                     *)
(* ------------------------------------------------------------------ *)

Lemma div_next :
  forall d k y, 0 < d ->
    (y + 1 - k) / d = (y - k) / d + (if (y + 1 - k) mod d =? 0 then 1 else 0).
Proof.
  intros d k y Hd.
  pose proof (Z.div_mod (y + 1 - k) d ltac:(lia)) as D.
  pose proof (Z.mod_pos_bound (y + 1 - k) d Hd) as B.
  destruct (Z.eqb_spec ((y + 1 - k) mod d) 0) as [E|E].
  - assert ((y - k) / d = (y + 1 - k) / d - 1)
      by (symmetry; apply Z.div_unique with (r := d - 1); lia).
    lia.
  - assert ((y - k) / d = (y + 1 - k) / d)
      by (symmetry; apply Z.div_unique with (r := (y + 1 - k) mod d - 1); lia).
    lia.
Qed.

Lemma mod_shift :
  forall d k y, 0 < d -> k mod d = 0 -> (y - k) mod d = y mod d.
Proof.
  intros d k y Hd Hk. rewrite Zminus_mod, Hk, Z.sub_0_r, Z.mod_mod; lia.
Qed.

Lemma InLeapYear_range : forall y, 0 <= JS.InLeapYear y <= 1.
Proof.
  intro y. unfold JS.InLeapYear.
  destruct (y mod 4 =? 0), (y mod 100 =? 0), (y mod 400 =? 0); simpl; lia.
Qed.

(** A year has 365 days, or 366 when it is a leap year. *)
Lemma DayFromYear_next :
  forall y, JS.DayFromYear (y + 1) = JS.DayFromYear y + 365 + JS.InLeapYear y.
Proof.
  intro y. unfold JS.DayFromYear, JS.InLeapYear.
  rewrite (div_next 4 1969 y), (div_next 100 1901 y), (div_next 400 1601 y) by lia.
  replace (y + 1 - 1969) with (y - 1968) by lia.
  replace (y + 1 - 1901) with (y - 1900) by lia.
  replace (y + 1 - 1601) with (y - 1600) by lia.
  rewrite (mod_shift 4 1968 y), (mod_shift 100 1900 y), (mod_shift 400 1600 y)
    by reflexivity.
  assert (H4 : (y mod 100) mod 4 = y mod 4)
    by (apply Z.mod_mod_divide; exists 25; lia).
  assert (H100 : (y mod 400) mod 100 = y mod 100)
    by (apply Z.mod_mod_divide; exists 4; lia).
  destruct (Z.eqb_spec (y mod 4) 0) as [e|e], (Z.eqb_spec (y mod 100) 0) as [e0|e0],
           (Z.eqb_spec (y mod 400) 0) as [e1|e1]; cbn [negb]; try lia; exfalso.
  all: try (rewrite e0 in H4; change (0 mod 4) with 0 in H4; lia).
  all: try (rewrite e1 in H100; change (0 mod 100) with 0 in H100; lia).
Qed.

Lemma firstDay_at :
  forall q r, 0 <= r < 12 ->
    firstDay (12 * q + r) = JS.DayFromYear q + JS.monthStart r (JS.InLeapYear q).
Proof.
  intros q r Hr. unfold firstDay.
  assert (Hq : (12 * q + r) / 12 = q)
    by (symmetry; apply Z.div_unique with (r := r); lia).
  assert (Hm : (12 * q + r) mod 12 = r)
    by (symmetry; apply Z.mod_unique with (q := q); lia).
  now rewrite Hq, Hm.
Qed.

Lemma firstDay_next_at :
  forall q r, 0 <= r < 12 -> firstDay (12 * q + r) < firstDay (12 * q + r + 1).
Proof.
  intros q r Hr.
  pose proof (InLeapYear_range q) as L.
  rewrite (firstDay_at q r Hr).
  destruct (Z.eq_dec r 11) as [->|N].
  - replace (12 * q + 11 + 1) with (12 * (q + 1) + 0) by lia.
    rewrite firstDay_at by lia. rewrite DayFromYear_next.
    cbn [JS.monthStart]. lia.
  - replace (12 * q + r + 1) with (12 * q + (r + 1)) by lia.
    rewrite firstDay_at by lia.
    assert (C : r = 0 \/ r = 1 \/ r = 2 \/ r = 3 \/ r = 4 \/ r = 5 \/ r = 6
                \/ r = 7 \/ r = 8 \/ r = 9 \/ r = 10) by lia.
    destruct C as [->|[->|[->|[->|[->|[->|[->|[->|[->|[->| ->]]]]]]]]]];
      match goal with
      | |- context [JS.monthStart (?a + 1) _] =>
          let v := eval vm_compute in (a + 1) in change (a + 1) with v
      end;
      cbn [JS.monthStart]; lia.
Qed.

(** Each month starts after the one before it. *)
Lemma firstDay_next : forall i, firstDay i < firstDay (i + 1).
Proof.
  intro i.
  pose proof (Z.div_mod i 12 ltac:(lia)) as D.
  pose proof (Z.mod_pos_bound i 12 ltac:(lia)) as B.
  rewrite D. now apply firstDay_next_at.
Qed.

Lemma firstDay_steps :
  forall (n : nat) i, firstDay i + Z.of_nat n <= firstDay (i + Z.of_nat n).
Proof.
  induction n as [|n IH]; intro i.
  - rewrite !Z.add_0_r. lia.
  - specialize (IH i). pose proof (firstDay_next (i + Z.of_nat n)) as Hn.
    replace (i + Z.of_nat (S n)) with (i + Z.of_nat n + 1) by lia. lia.
Qed.

Lemma firstDay_lt : forall i j, i < j -> firstDay i < firstDay j.
Proof.
  intros i j H. pose proof (firstDay_steps (Z.to_nat (j - i)) i) as Hs.
  replace (i + Z.of_nat (Z.to_nat (j - i))) with j in Hs by lia. lia.
Qed.

Lemma firstDay_le_iff : forall i j, firstDay i <= firstDay j <-> i <= j.
Proof.
  intros i j. split; intro H.
  - destruct (Z_lt_le_dec j i) as [L|L]; [|exact L].
    apply firstDay_lt in L. lia.
  - destruct (Z.eq_dec i j) as [->|N]; [lia|].
    assert (L : i < j) by lia. apply firstDay_lt in L. lia.
Qed.

Lemma MakeDay_firstDay :
  forall y m, JS.MakeDay y m 1 = firstDay (12 * y + m).
Proof.
  intros y m. unfold JS.MakeDay, firstDay.
  assert (Hq : (12 * y + m) / 12 = y + m / 12).
  { rewrite Z.add_comm, Z.mul_comm, Z.div_add by lia. lia. }
  assert (Hm : (12 * y + m) mod 12 = m mod 12).
  { rewrite Z.add_comm, Z.mul_comm, Z.mod_add by lia. reflexivity. }
  rewrite Hq, Hm. lia.
Qed.

(** Inside the range of [Date], [new Date(y, m)] is the first day of the
    month of number [12 * fullYear y + m]. *)
Lemma newDate_firstDay :
  forall y m,
    12 * -271820 <= 12 * fullYear y + m <= 12 * 275760 - 1 ->
    JS.newDate (Some y) (Some m)
      = Some (firstDay (12 * fullYear y + m) * JS.msPerDay).
Proof.
  intros y m [Hlo Hhi]. unfold JS.newDate. fold (fullYear y).
  rewrite MakeDay_firstDay.
  apply firstDay_le_iff in Hlo, Hhi.
  change (firstDay (12 * -271820)) with (-99999744) in Hlo.
  change (firstDay (12 * 275760 - 1)) with 99999713 in Hhi.
  unfold JS.TimeClip, JS.MakeDate, JS.msPerDay.
  destruct (Z.ltb_spec 8640000000000000
              (Z.abs (firstDay (12 * fullYear y + m) * 86400000 + 0))) as [L|L].
  - exfalso. lia.
  - f_equal. lia.
Qed.

Lemma Date_ge_firstDay :
  forall i j,
    JS.Date_ge (Some (firstDay i * JS.msPerDay)) (Some (firstDay j * JS.msPerDay))
      = (j <=? i).
Proof.
  intros i j. unfold JS.Date_ge, JS.msPerDay.
  pose proof (firstDay_le_iff j i) as M.
  destruct (Z.leb_spec j i) as [L|L];
    destruct (Z.leb_spec (firstDay j * 86400000) (firstDay i * 86400000)) as [L'|L'];
    try reflexivity; exfalso; lia.
Qed.

(* ------------------------------------------------------------------ *)
(** ** Reading a label                                                  *)
(* ------------------------------------------------------------------ *)

Lemma isDigit_cases :
  forall c, JS.isDigit c = true ->
    c = "0"%char \/ c = "1"%char \/ c = "2"%char \/ c = "3"%char \/ c = "4"%char
    \/ c = "5"%char \/ c = "6"%char \/ c = "7"%char \/ c = "8"%char \/ c = "9"%char.
Proof.
  intros c H.
  destruct c as [[] [] [] [] [] [] [] []]; vm_compute in H; try discriminate H;
    auto 10.
Qed.

Lemma digitValue_digit :
  forall c, JS.isDigit c = true ->
    JS.digitValue c = Some (JS.code c - 48) /\ 0 <= JS.code c - 48 <= 9.
Proof.
  intros c H. unfold JS.digitValue. unfold JS.isDigit in H. rewrite H.
  split; [reflexivity|]. apply andb_true_iff in H. lia.
Qed.

Lemma trimStart_digit :
  forall c r, JS.isDigit c = true -> JS.trimStart (String c r) = String c r.
Proof.
  intros c r H. simpl.
  destruct (isDigit_cases c H) as [->|[->|[->|[->|[->|[->|[->|[->|[->| ->]]]]]]]]];
    reflexivity.
Qed.

Lemma parseDigits_allDigits :
  forall s acc, allDigits s = true ->
    JS.parseDigits 10 s (Some acc) = Some (decimalFrom acc s).
Proof.
  unfold allDigits.
  induction s as [|c s IH]; intros acc H; simpl in *; [reflexivity|].
  apply andb_true_iff in H. destruct H as [Hc Hs].
  destruct (digitValue_digit c Hc) as [-> B].
  destruct (Z.ltb_spec (JS.code c - 48) 10) as [_|L]; [|lia].
  now apply IH.
Qed.

Lemma parseDigits_first :
  forall c r, JS.isDigit c = true -> allDigits r = true ->
    JS.parseDigits 10 (String c r) None = Some (decimalFrom 0 (String c r)).
Proof.
  intros c r Hc Hr. cbn [JS.parseDigits decimalFrom].
  destruct (digitValue_digit c Hc) as [-> B].
  destruct (Z.ltb_spec (JS.code c - 48) 10) as [_|L]; [|lia].
  now apply parseDigits_allDigits.
Qed.

(** On a non-empty string of decimal digits [parseInt] is the decimal
    reading. *)
Lemma parseInt_digits :
  forall c r, JS.isDigit c = true -> allDigits r = true ->
    JS.parseInt (String c r) = Some (decimalFrom 0 (String c r)).
Proof.
  intros c r Hc Hr. unfold JS.parseInt. rewrite (trimStart_digit c r Hc).
  pose proof (parseDigits_first c r Hc Hr) as P.
  destruct (isDigit_cases c Hc) as [->|[->|[->|[->|[->|[->|[->|[->|[->| ->]]]]]]]]];
    cbv beta iota;
    try (rewrite P; f_equal; lia).
  destruct r as [|c2 r2]; cbv beta iota; [rewrite P; f_equal; lia|].
  assert (Hc2 : JS.isDigit c2 = true).
  { unfold allDigits in Hr. simpl in Hr. now apply andb_true_iff in Hr. }
  destruct (isDigit_cases c2 Hc2) as [->|[->|[->|[->|[->|[->|[->|[->|[->| ->]]]]]]]]];
    cbv beta iota; rewrite P; f_equal; lia.
Qed.

Lemma labelYearMonth_parse :
  forall label y m,
    labelYearMonth label = Some (y, m) ->
    JS.parseInt (JS.substring label 0 4) = Some y
    /\ JS.parseInt (JS.substring label 4 6) = Some m
    /\ 0 <= y <= 9999 /\ 0 <= m <= 99.
Proof.
  intros label y m H.
  destruct label as [|a [|b [|c [|d [|e [|f rest]]]]]]; try discriminate H.
  unfold labelYearMonth, digitOf in H.
  destruct (JS.isDigit a) eqn:Ha; [|discriminate H].
  destruct (JS.isDigit b) eqn:Hb; [|discriminate H].
  destruct (JS.isDigit c) eqn:Hc; [|discriminate H].
  destruct (JS.isDigit d) eqn:Hd; [|discriminate H].
  destruct (JS.isDigit e) eqn:He; [|discriminate H].
  destruct (JS.isDigit f) eqn:Hf; [|discriminate H].
  assert (Ey : y = 1000 * (JS.code a - 48) + 100 * (JS.code b - 48)
                   + 10 * (JS.code c - 48) + (JS.code d - 48)) by congruence.
  assert (Em : m = 10 * (JS.code e - 48) + (JS.code f - 48)) by congruence.
  clear H.
  destruct (digitValue_digit a Ha) as [_ Ba], (digitValue_digit b Hb) as [_ Bb],
           (digitValue_digit c Hc) as [_ Bc], (digitValue_digit d Hd) as [_ Bd],
           (digitValue_digit e He) as [_ Be], (digitValue_digit f Hf) as [_ Bf].
  change (JS.substring (String a (String b (String c (String d (String e (String f rest)))))) 0 4)
    with (String a (String b (String c (String d EmptyString)))).
  replace (JS.substring (String a (String b (String c (String d (String e (String f rest)))))) 4 6)
    with (String e (String f EmptyString)) by (now destruct rest).
  rewrite !parseInt_digits;
    try assumption;
    try (unfold allDigits; simpl; now rewrite ?Hb, ?Hc, ?Hd, ?Hf).
  cbn [decimalFrom].
  repeat split; try (f_equal; lia); lia.
Qed.

(** The window test of the code decides "within [n] months" as the
    specification words it, for a clock of 2009 or later: a label with a year
    from 0000 to 0099, which [Date] reads as a year from 1900 to 1999, then
    lies before every window under either reading. *)
Lemma isPeriodWithinMonths_spec :
  forall now n label,
    clock_in_range now -> 2009 <= getFullYear now -> 0 <= n <= 12 ->
    labelYearMonth label <> None ->
    isPeriodWithinMonths (getFullYear now) (getMonth now + 1) label n
      = withinTrailingMonths now n label.
Proof.
  intros now n label [HY HM] H2009 Hn Hwf.
  unfold withinTrailingMonths, evaluationMonth, monthNumber.
  destruct (labelYearMonth label) as [[y m]|] eqn:E; [|contradiction].
  destruct (labelYearMonth_parse label y m E) as (Py & Pm & By & Bm).
  unfold isPeriodWithinMonths. rewrite Py, Pm. cbn [option_map].
  assert (FY : fullYear (getFullYear now) = getFullYear now).
  { unfold fullYear. destruct (Z.leb_spec (getFullYear now) 99); [lia|].
    now rewrite andb_false_r. }
  assert (Fy : fullYear y = y /\ 100 <= y \/ fullYear y = 1900 + y /\ y <= 99).
  { unfold fullYear. destruct (Z.leb_spec 0 y); [|lia].
    destruct (Z.leb_spec y 99); [right|left]; simpl; lia. }
  rewrite (newDate_firstDay y (m - 1)) by lia.
  rewrite (newDate_firstDay (getFullYear now) (getMonth now + 1 - 1 - n)) by lia.
  rewrite Date_ge_firstDay, FY.
  destruct Fy as [[-> _]|[-> Hy]].
  - f_equal; lia.
  - destruct (Z.leb_spec (12 * getFullYear now + (getMonth now + 1 - 1 - n))
                         (12 * (1900 + y) + (m - 1)));
      destruct (Z.leb_spec (12 * getFullYear now + (getMonth now + 1 - 1) - n)
                           (12 * y + (m - 1)));
      try reflexivity; exfalso; lia.
Qed.

(** A period within the window of 6 months is within the window of 12. *)
Lemma within_6_within_12 :
  forall now label,
    clock_in_range now ->
    isPeriodWithinMonths (getFullYear now) (getMonth now + 1) label 6 = true ->
    isPeriodWithinMonths (getFullYear now) (getMonth now + 1) label 12 = true.
Proof.
  intros now label [HY HM]. unfold isPeriodWithinMonths.
  assert (Fy : -271819 <= fullYear (getFullYear now) <= 275759).
  { unfold fullYear. destruct (Z.leb_spec 0 (getFullYear now));
      destruct (Z.leb_spec (getFullYear now) 99); cbn [andb]; lia. }
  rewrite (newDate_firstDay (getFullYear now) (getMonth now + 1 - 1 - 6)) by lia.
  rewrite (newDate_firstDay (getFullYear now) (getMonth now + 1 - 1 - 12)) by lia.
  destruct (JS.newDate _ _) as [t|]; [|discriminate].
  unfold JS.Date_ge. intro H. apply Z.leb_le in H. apply Z.leb_le.
  assert (L : firstDay (12 * fullYear (getFullYear now) + (getMonth now + 1 - 1 - 12))
              < firstDay (12 * fullYear (getFullYear now) + (getMonth now + 1 - 1 - 6)))
    by (apply firstDay_lt; lia).
  unfold JS.msPerDay in *. lia.
Qed.

(* ------------------------------------------------------------------ *)
(** ** The window checks                                                *)
(* ------------------------------------------------------------------ *)

Lemma filter_perm :
  forall (A : Type) (f : A -> bool) (l l' : list A),
    Permutation l l' -> Permutation (filter f l) (filter f l').
Proof.
  intros A f l l' P. induction P as [|x l l' P IH|x y l|l l' l'' P1 IH1 P2 IH2]; simpl.
  - apply perm_nil.
  - destruct (f x); [now apply perm_skip | exact IH].
  - destruct (f x), (f y); try apply Permutation_refl. apply perm_swap.
  - now apply perm_trans with (filter f l').
Qed.

Lemma is_maximum_perm :
  forall l l' m, Permutation l l' -> is_maximum m l -> is_maximum m l'.
Proof.
  intros l l' m P [Hin Hmax]. split.
  - now apply (Permutation_in _ P).
  - intros x Hx. apply Hmax. now apply (Permutation_in _ (Permutation_sym P)).
Qed.

(** What the code computes for a window, from the periods it kept. *)
Lemma windowWorst_cases :
  forall now n l,
    (windowPeriods now n l = [] /\ windowWorst now n l = None)
    \/ (windowPeriods now n l <> []
        /\ exists w, windowWorst now n l = Some w
                     /\ is_maximum w (map getWorstSituationForPeriod (windowPeriods now n l))).
Proof.
  intros now n l. unfold windowWorst.
  destruct (windowPeriods now n l) as [|p ps]; [left; now split|].
  right. split; [discriminate|].
  exists (JS.Math_max (getWorstSituationForPeriod p) (map getWorstSituationForPeriod ps)).
  split; [reflexivity | apply Math_max_is_maximum].
Qed.

(** The periods kept by the code for a window are the qualifying periods of
    the record, in sorted order. *)
Lemma windowPeriods_qualifying :
  forall now n h,
    labels_well_formed h -> clock_in_range now -> 2009 <= getFullYear now ->
    0 <= n <= 12 ->
    windowPeriods now n (sortedPeriods h)
      = filter (fun p => withinTrailingMonths now n (periodo p)) (sortedPeriods h)
    /\ Permutation (windowPeriods now n (sortedPeriods h)) (qualifying now n h).
Proof.
  intros now n h Hwf Hc Hy Hn.
  assert (P : Permutation (periodos h) (sortedPeriods h)) by apply Array_sort_perm.
  assert (E : windowPeriods now n (sortedPeriods h)
              = filter (fun p => withinTrailingMonths now n (periodo p)) (sortedPeriods h)).
  { unfold windowPeriods. apply filter_ext_in. intros p Hp.
    apply isPeriodWithinMonths_spec; try assumption.
    apply Hwf. now apply (Permutation_in _ (Permutation_sym P)). }
  split; [exact E|]. rewrite E. unfold qualifying.
  apply filter_perm, Permutation_sym, P.
Qed.

(** The value of a window, in terms of the qualifying periods. *)
Lemma windowWorst_qualifying :
  forall now n h,
    labels_well_formed h -> clock_in_range now -> 2009 <= getFullYear now ->
    0 <= n <= 12 ->
    (qualifying now n h = [] /\ windowWorst now n (sortedPeriods h) = None)
    \/ (qualifying now n h <> []
        /\ exists w, windowWorst now n (sortedPeriods h) = Some w
                     /\ is_maximum w (map getWorstSituationForPeriod (qualifying now n h))).
Proof.
  intros now n h Hwf Hc Hy Hn.
  destruct (windowPeriods_qualifying now n h Hwf Hc Hy Hn) as [_ P].
  destruct (windowWorst_cases now n (sortedPeriods h)) as [[E N]|[E (w & S & M)]].
  - left. split; [|exact N]. rewrite E in P. now apply Permutation_nil in P.
  - right. split.
    + intro Q. rewrite Q in P. apply Permutation_sym, Permutation_nil in P. contradiction.
    + exists w. split; [exact S|].
      apply (is_maximum_perm _ _ _ (Permutation_map _ P) M).
Qed.

(** A period exactly [n] months back passes the window test of the code. *)
Lemma boundary_month_qualifies :
  forall now n label y m,
    clock_in_range now -> 2009 <= getFullYear now -> 0 <= n <= 12 ->
    labelYearMonth label = Some (y, m) ->
    monthNumber y m = evaluationMonth now - n ->
    isPeriodWithinMonths (getFullYear now) (getMonth now + 1) label n = true.
Proof.
  intros now n label y m Hc Hy Hn E B.
  rewrite isPeriodWithinMonths_spec by (try assumption; rewrite E; discriminate).
  unfold withinTrailingMonths. rewrite E. apply Z.leb_le. lia.
Qed.

(** C1. For a present historical record with periods, each labelled by six
    digits, and a clock of 2009 or later: the 6-month check keeps exactly the
    periods whose month is on or after (evaluation month - 6), a period
    exactly 6 months back included; when some period qualifies,
    [last6MonthsWorstSituation] is the greatest worst situation of the
    qualifying periods and the 6-month reason is among the failure reasons
    exactly when that value exceeds 1; when none qualifies the field is null
    and no 6-month reason is present. *)
Theorem C1_six_month_check :
  forall (now : Clock) (c : option BCRADebtData) (h : BCRAHistoricalData),
    periodos h <> [] -> labels_well_formed h ->
    clock_in_range now -> 2009 <= getFullYear now ->
    let a := analyzeBCRAEligibility now c (Some h) in
    windowPeriods now 6 (sortedPeriods h)
      = filter (fun p => withinTrailingMonths now 6 (periodo p)) (sortedPeriods h)
    /\ (forall label y m,
          labelYearMonth label = Some (y, m) ->
          monthNumber y m = evaluationMonth now - 6 ->
          isPeriodWithinMonths (getFullYear now) (getMonth now + 1) label 6 = true)
    /\ (qualifying now 6 h <> [] ->
        exists w,
          is_maximum w (map getWorstSituationForPeriod (qualifying now 6 h))
          /\ last6MonthsWorstSituation a = Some w
          /\ forall k, In (reasonLast6 k) (failureReasons a) <-> k = w /\ 1 < w)
    /\ (qualifying now 6 h = [] ->
        last6MonthsWorstSituation a = None
        /\ forall k, ~ In (reasonLast6 k) (failureReasons a)).
Proof.
  intros now c h Hne Hwf Hc Hy a.
  assert (Hn : 0 <= 6 <= 12) by lia.
  destruct (sortedPeriods_cons h Hne) as (p & rest & Hs).
  subst a. rewrite (analyze_past_early_returns now c h p rest Hs).
  cbv beta zeta. cbn [last6MonthsWorstSituation failureReasons].
  rewrite <- Hs.
  split; [apply (windowPeriods_qualifying now 6 h Hwf Hc Hy Hn)|].
  split; [intros label y m E B; now apply (boundary_month_qualifies now 6 label y m)|].
  destruct (windowWorst_qualifying now 6 h Hwf Hc Hy Hn) as [[Q N]|[Q (w & S & M)]];
    split; intro Q'; try contradiction.
  - split; [exact N|]. intros k Hk. apply in_reasons_last6 in Hk.
    rewrite N in Hk. now destruct Hk.
  - exists w. split; [exact M|]. split; [exact S|].
    intro k. rewrite in_reasons_last6, S. split.
    + intros [[= ->] L]. now split.
    + intros [-> L]. now split.
Qed.

(** C2. The 12-month check, under the same conditions: the same window rule
    with 12 months, [last12MonthsWorstSituation] the greatest worst situation
    of the qualifying periods, and the 12-month reason present exactly when
    that value exceeds 2; null and without reason when no period qualifies. *)
Theorem C2_twelve_month_check :
  forall (now : Clock) (c : option BCRADebtData) (h : BCRAHistoricalData),
    periodos h <> [] -> labels_well_formed h ->
    clock_in_range now -> 2009 <= getFullYear now ->
    let a := analyzeBCRAEligibility now c (Some h) in
    windowPeriods now 12 (sortedPeriods h)
      = filter (fun p => withinTrailingMonths now 12 (periodo p)) (sortedPeriods h)
    /\ (forall label y m,
          labelYearMonth label = Some (y, m) ->
          monthNumber y m = evaluationMonth now - 12 ->
          isPeriodWithinMonths (getFullYear now) (getMonth now + 1) label 12 = true)
    /\ (qualifying now 12 h <> [] ->
        exists w,
          is_maximum w (map getWorstSituationForPeriod (qualifying now 12 h))
          /\ last12MonthsWorstSituation a = Some w
          /\ forall k, In (reasonLast12 k) (failureReasons a) <-> k = w /\ 2 < w)
    /\ (qualifying now 12 h = [] ->
        last12MonthsWorstSituation a = None
        /\ forall k, ~ In (reasonLast12 k) (failureReasons a)).
Proof.
  intros now c h Hne Hwf Hc Hy a.
  assert (Hn : 0 <= 12 <= 12) by lia.
  destruct (sortedPeriods_cons h Hne) as (p & rest & Hs).
  subst a. rewrite (analyze_past_early_returns now c h p rest Hs).
  cbv beta zeta. cbn [last12MonthsWorstSituation failureReasons].
  rewrite <- Hs.
  split; [apply (windowPeriods_qualifying now 12 h Hwf Hc Hy Hn)|].
  split; [intros label y m E B; now apply (boundary_month_qualifies now 12 label y m)|].
  destruct (windowWorst_qualifying now 12 h Hwf Hc Hy Hn) as [[Q N]|[Q (w & S & M)]];
    split; intro Q'; try contradiction.
  - split; [exact N|]. intros k Hk. apply in_reasons_last12 in Hk.
    rewrite N in Hk. now destruct Hk.
  - exists w. split; [exact M|]. split; [exact S|].
    intro k. rewrite in_reasons_last12, S. split.
    + intros [[= ->] L]. now split.
    + intros [-> L]. now split.
Qed.

Lemma C1_witness :
  let a := analyzeBCRAEligibility march2024 None (Some sampleHistory) in
  windowPeriods march2024 6 (sortedPeriods sampleHistory)
    = filter (fun p => withinTrailingMonths march2024 6 (periodo p))
             (sortedPeriods sampleHistory)
  /\ (forall label y m,
        labelYearMonth label = Some (y, m) ->
        monthNumber y m = evaluationMonth march2024 - 6 ->
        isPeriodWithinMonths (getFullYear march2024) (getMonth march2024 + 1) label 6 = true)
  /\ (qualifying march2024 6 sampleHistory <> [] ->
      exists w,
        is_maximum w (map getWorstSituationForPeriod (qualifying march2024 6 sampleHistory))
        /\ last6MonthsWorstSituation a = Some w
        /\ forall k, In (reasonLast6 k) (failureReasons a) <-> k = w /\ 1 < w)
  /\ (qualifying march2024 6 sampleHistory = [] ->
      last6MonthsWorstSituation a = None
      /\ forall k, ~ In (reasonLast6 k) (failureReasons a)).
Proof.
  apply (C1_six_month_check march2024 None sampleHistory).
  - simpl. discriminate.
  - intros p [<-|[<-|[]]]; vm_compute; discriminate.
  - unfold clock_in_range. simpl. lia.
  - simpl. lia.
Defined.

Lemma C2_witness :
  let a := analyzeBCRAEligibility march2024 None (Some sampleHistory) in
  windowPeriods march2024 12 (sortedPeriods sampleHistory)
    = filter (fun p => withinTrailingMonths march2024 12 (periodo p))
             (sortedPeriods sampleHistory)
  /\ (forall label y m,
        labelYearMonth label = Some (y, m) ->
        monthNumber y m = evaluationMonth march2024 - 12 ->
        isPeriodWithinMonths (getFullYear march2024) (getMonth march2024 + 1) label 12 = true)
  /\ (qualifying march2024 12 sampleHistory <> [] ->
      exists w,
        is_maximum w (map getWorstSituationForPeriod (qualifying march2024 12 sampleHistory))
        /\ last12MonthsWorstSituation a = Some w
        /\ forall k, In (reasonLast12 k) (failureReasons a) <-> k = w /\ 2 < w)
  /\ (qualifying march2024 12 sampleHistory = [] ->
      last12MonthsWorstSituation a = None
      /\ forall k, ~ In (reasonLast12 k) (failureReasons a)).
Proof.
  apply (C2_twelve_month_check march2024 None sampleHistory).
  - simpl. discriminate.
  - intros p [<-|[<-|[]]]; vm_compute; discriminate.
  - unfold clock_in_range. simpl. lia.
  - simpl. lia.
Defined.

(* ------------------------------------------------------------------ *)
(** ** The two windows together                                         *)
(* ------------------------------------------------------------------ *)

Lemma windowPeriods_6_in_12 :
  forall now l p,
    clock_in_range now ->
    In p (windowPeriods now 6 l) -> In p (windowPeriods now 12 l).
Proof.
  intros now l p Hc. unfold windowPeriods. rewrite !filter_In.
  intros [Hin H6]. split; [exact Hin|]. now apply within_6_within_12.
Qed.

Lemma windowWorst_6_le_12 :
  forall now l x,
    clock_in_range now ->
    windowWorst now 6 l = Some x ->
    exists y, windowWorst now 12 l = Some y /\ x <= y.
Proof.
  intros now l x Hc H6.
  destruct (windowWorst_cases now 6 l) as [[_ N]|[_ (w & S & [Hin _])]];
    [congruence|].
  assert (w = x) by congruence. subst w.
  apply in_map_iff in Hin. destruct Hin as (p & Ep & Hp).
  apply (windowPeriods_6_in_12 now l p Hc) in Hp.
  destruct (windowWorst_cases now 12 l) as [[E _]|[_ (y & S12 & [_ Hmax])]].
  - rewrite E in Hp. destruct Hp.
  - exists y. split; [exact S12|]. apply Hmax. rewrite <- Ep. now apply in_map.
Qed.

(** C9. In a verdict whose [last6MonthsWorstSituation] is not null,
    [last12MonthsWorstSituation] is not null either and is at least as
    large. *)
Theorem C9_six_month_worst_bounded_by_twelve :
  forall (now : Clock) (c : option BCRADebtData) (oh : option BCRAHistoricalData)
         (x : Z),
    clock_in_range now ->
    last6MonthsWorstSituation (analyzeBCRAEligibility now c oh) = Some x ->
    exists y,
      last12MonthsWorstSituation (analyzeBCRAEligibility now c oh) = Some y
      /\ x <= y.
Proof.
  intros now c oh x Hc H6.
  destruct oh as [h|]; [|destruct c; discriminate H6].
  destruct (sortedPeriods h) as [|p rest] eqn:Hs.
  - exfalso. unfold analyzeBCRAEligibility in H6. fold (sortedPeriods h) in H6.
    rewrite Hs in H6. destruct c; discriminate H6.
  - rewrite (analyze_past_early_returns now c h p rest Hs) in *.
    cbv beta zeta in *. cbn [last6MonthsWorstSituation last12MonthsWorstSituation] in *.
    now apply windowWorst_6_le_12.
Qed.

Lemma C9_witness :
  exists y,
    last12MonthsWorstSituation
      (analyzeBCRAEligibility march2024 None (Some sampleHistory)) = Some y
    /\ 3 <= y.
Proof.
  apply (C9_six_month_worst_bounded_by_twelve march2024 None (Some sampleHistory) 3).
  - unfold clock_in_range. simpl. lia.
  - vm_compute. reflexivity.
Defined.

(* ------------------------------------------------------------------ *)
(** ** The worked example of the specification, and checks of the model *)
(* ------------------------------------------------------------------ *)

(** Evaluated in March 2024, the sample record has current situation 1, worst
    situation 3 in both windows, and is NO_APTO with the two window reasons. *)
Example sampleHistory_verdict :
  analyzeBCRAEligibility march2024 None (Some sampleHistory)
  = {| isEligible := false;
       status := BCRA_NO_APTO;
       currentSituation := Some 1;
       last6MonthsWorstSituation := Some 3;
       last12MonthsWorstSituation := Some 3;
       failureReasons :=
         ["Peor situación últimos 6 meses: 3 (debe ser ≤ 1)"%string;
          "Peor situación últimos 12 meses: 3 (debe ser ≤ 2)"%string];
       analysisDate := "2024-03-15T12:00:00.000Z" |}.
Proof. vm_compute. reflexivity. Qed.

(** A period without entities counts as situation 1 and the verdict is APTO. *)
Example empty_period_verdict :
  analyzeBCRAEligibility march2024 None (Some (historyOf [periodWith "202402" []]))
  = {| isEligible := true;
       status := BCRA_APTO;
       currentSituation := Some 1;
       last6MonthsWorstSituation := Some 1;
       last12MonthsWorstSituation := Some 1;
       failureReasons := [];
       analysisDate := "2024-03-15T12:00:00.000Z" |}.
Proof. vm_compute. reflexivity. Qed.

(** September 2023 is exactly 6 months before March 2024 and is kept; August
    2023 is not. *)
Example window_boundary :
  isPeriodWithinMonths 2024 3 "202309" 6 = true
  /\ isPeriodWithinMonths 2024 3 "202308" 6 = false
  /\ isPeriodWithinMonths 2024 3 "202303" 12 = true
  /\ isPeriodWithinMonths 2024 3 "202302" 12 = false.
Proof. vm_compute. repeat split; reflexivity. Qed.

Example parseInt_checks :
  JS.parseInt "2024" = Some 2024
  /\ JS.parseInt "09" = Some 9
  /\ JS.parseInt "0x1F" = Some 31
  /\ JS.parseInt " -12a" = Some (-12)
  /\ JS.parseInt "ab" = None
  /\ JS.parseInt "" = None.
Proof. vm_compute. repeat split; reflexivity. Qed.

Example newDate_checks :
  JS.newDate (Some 1970) (Some 0) = Some 0
  /\ JS.newDate (Some 2024) (Some 2) = Some 1709251200000
  /\ JS.newDate (Some 2024) (Some (-4)) = JS.newDate (Some 2023) (Some 8)
  /\ JS.newDate (Some 24) (Some 0) = JS.newDate (Some 1924) (Some 0)
  /\ JS.newDate None (Some 0) = None
  /\ JS.newDate (Some 275761) (Some 0) = None.
Proof. vm_compute. repeat split; reflexivity. Qed.

Example sort_is_stable_descending :
  map periodo (sortedPeriods (historyOf
     [periodWith "202311" [1]; periodWith "202401" [1]; periodWith "202312" [2];
      periodWith "202401" [3]]))
  = ["202401"; "202401"; "202312"; "202311"]%string
  /\ map getWorstSituationForPeriod (sortedPeriods (historyOf
     [periodWith "202311" [1]; periodWith "202401" [1]; periodWith "202312" [2];
      periodWith "202401" [3]]))
  = [1; 3; 2; 1].
Proof. vm_compute. split; reflexivity. Qed.

(* ------------------------------------------------------------------ *)
(** ** Strings of digits, prefixes and suffixes                         *)
(* ------------------------------------------------------------------ *)

Lemma allDigits_cons :
  forall c s, allDigits (String c s) = JS.isDigit c && allDigits s.
Proof. reflexivity. Qed.

Lemma allDigits_append :
  forall a b, allDigits (a ++ b)%string = allDigits a && allDigits b.
Proof.
  induction a as [|c a IH]; intro b; [reflexivity|].
  simpl String.append. rewrite !allDigits_cons, IH. apply andb_assoc.
Qed.

Lemma replaceNonDigits_allDigits :
  forall s, allDigits (JS.replaceNonDigits s) = true.
Proof.
  induction s as [|c s IH]; [reflexivity|]. simpl.
  destruct (JS.isDigit c) eqn:E; [|exact IH].
  rewrite allDigits_cons, E. exact IH.
Qed.

Lemma replaceNonDigits_id :
  forall s, allDigits s = true -> JS.replaceNonDigits s = s.
Proof.
  induction s as [|c s IH]; intro H; [reflexivity|].
  rewrite allDigits_cons in H. apply andb_true_iff in H. destruct H as [Hc Hs].
  simpl. rewrite Hc. f_equal. now apply IH.
Qed.

Lemma replaceNonDigits_append :
  forall a b,
    JS.replaceNonDigits (a ++ b)%string
      = (JS.replaceNonDigits a ++ JS.replaceNonDigits b)%string.
Proof.
  induction a as [|c a IH]; intro b; [reflexivity|]. simpl.
  destruct (JS.isDigit c); simpl; now rewrite IH.
Qed.

Lemma substring_0_0 : forall s, String.substring 0 0 s = EmptyString.
Proof. now destruct s. Qed.

Lemma substring_0_length :
  forall n s, (String.length (String.substring 0 n s) = Nat.min n (String.length s))%nat.
Proof.
  induction n as [|n IH]; intros [|c s]; simpl; try reflexivity.
  now rewrite IH.
Qed.

Lemma substring_0_all :
  forall n s, (String.length s <= n)%nat -> String.substring 0 n s = s.
Proof.
  induction n as [|n IH]; intros [|c s] H; simpl in *; try reflexivity; try lia.
  f_equal. apply IH. lia.
Qed.

Lemma substring_0_allDigits :
  forall n s, allDigits s = true -> allDigits (String.substring 0 n s) = true.
Proof.
  induction n as [|n IH]; intros [|c s] H; simpl; try reflexivity.
  rewrite allDigits_cons in *. apply andb_true_iff in H. destruct H as [Hc Hs].
  rewrite Hc. now apply IH.
Qed.

(** A prefix and the rest of the string make up the string. *)
Lemma substring_prefix_rest :
  forall n s,
    (String.substring 0 n s ++ JSExtra.substringFrom s n)%string = s.
Proof.
  unfold JSExtra.substringFrom.
  induction n as [|n IH]; intro s.
  - rewrite substring_0_0. simpl String.append. apply substring_0_all. lia.
  - destruct s as [|c s]; [reflexivity|]. simpl. f_equal. apply IH.
Qed.

Lemma substring_shift :
  forall n m c s, String.substring (S n) m (String c s) = String.substring n m s.
Proof. reflexivity. Qed.

(** A middle part and the rest make up the part from its start. *)
Lemma substring_middle_rest :
  forall a b s,
    (String.substring a b s ++ JSExtra.substringFrom s (a + b))%string
      = JSExtra.substringFrom s a.
Proof.
  unfold JSExtra.substringFrom.
  induction a as [|a IH]; intros b s.
  - simpl Nat.add. rewrite Nat.sub_0_r.
    rewrite (substring_0_all (String.length s) s) by lia.
    apply (substring_prefix_rest b s).
  - destruct s as [|c s]; [now destruct b|].
    simpl. apply IH.
Qed.

Lemma allDigits_no_dash :
  JS.replaceNonDigits "-" = EmptyString.
Proof. reflexivity. Qed.

(* ------------------------------------------------------------------ *)
(** ** CUIT utilities                                                   *)
(* ------------------------------------------------------------------ *)

Lemma limited_facts :
  forall value,
    let limited := JS.substring (JS.replaceNonDigits value) 0 11 in
    allDigits limited = true /\ (String.length limited <= 11)%nat.
Proof.
  intro value. unfold JS.substring. simpl Nat.sub. split.
  - apply substring_0_allDigits, replaceNonDigits_allDigits.
  - rewrite substring_0_length. lia.
Qed.

Lemma allDigits_parts :
  forall l, allDigits l = true ->
    forall a b, allDigits (String.substring a b l) = true.
Proof.
  induction l as [|c l IH]; intros H a b.
  - now destruct a, b.
  - rewrite allDigits_cons in H. apply andb_true_iff in H. destruct H as [Hc Hl].
    destruct a as [|a].
    + destruct b as [|b]; [reflexivity|]. simpl. rewrite allDigits_cons, Hc.
      apply (IH Hl 0%nat b).
    + simpl. apply (IH Hl a b).
Qed.

(** The digits of a formatted value, in terms of the digits of the value. *)
Lemma formatCuit_digits :
  forall value,
    JS.replaceNonDigits (formatCuit value)
      = JS.substring (JS.replaceNonDigits value) 0 11.
Proof.
  intro value. unfold formatCuit.
  destruct (limited_facts value) as [Hd Hl].
  set (limited := JS.substring (JS.replaceNonDigits value) 0 11) in *.
  destruct (String.length limited <=? 2)%nat; [now apply replaceNonDigits_id|].
  destruct (String.length limited <=? 10)%nat.
  - rewrite !replaceNonDigits_append, allDigits_no_dash. simpl String.append.
    unfold JS.substring, JSExtra.substringFrom.
    rewrite !replaceNonDigits_id by (now apply allDigits_parts).
    apply (substring_prefix_rest 2 limited).
  - rewrite !replaceNonDigits_append, allDigits_no_dash. simpl String.append.
    unfold JS.substring. simpl Nat.sub.
    rewrite (replaceNonDigits_id (String.substring 0 2 limited)) by (now apply allDigits_parts).
    rewrite (replaceNonDigits_id (String.substring 2 8 limited)) by (now apply allDigits_parts).
    rewrite (replaceNonDigits_id (JSExtra.substringFrom limited 10))
      by (now apply allDigits_parts).
    pose proof (substring_middle_rest 2 8 limited) as M. simpl Nat.add in M.
    rewrite M. apply (substring_prefix_rest 2 limited).
Qed.

(** X1. Formatting keeps the digits: cleaning a formatted value gives the
    first 11 digits of the value. *)
Theorem X1_cleanCuit_formatCuit :
  forall value : string,
    cleanCuit (formatCuit value) = JS.substring (cleanCuit value) 0 11.
Proof.
  intro value. unfold cleanCuit. apply formatCuit_digits.
Qed.

(** X2. Formatting a formatted value changes nothing. *)
Theorem X2_formatCuit_idempotent :
  forall value : string, formatCuit (formatCuit value) = formatCuit value.
Proof.
  intro value. unfold formatCuit at 1. rewrite formatCuit_digits.
  destruct (limited_facts value) as [Hd Hl].
  unfold formatCuit.
  set (limited := JS.substring (JS.replaceNonDigits value) 0 11) in *.
  replace (JS.substring limited 0 11) with limited; [reflexivity|].
  unfold JS.substring. simpl Nat.sub. symmetry. now apply substring_0_all.
Qed.

Lemma substring_length :
  forall a b s,
    String.length (String.substring a b s) = Nat.min b (String.length s - a).
Proof.
  induction a as [|a IH]; intros b s.
  - rewrite Nat.sub_0_r. apply substring_0_length.
  - destruct s as [|c s]; [now destruct b|]. simpl. apply IH.
Qed.

Lemma limited_length :
  forall value,
    String.length (JS.substring (JS.replaceNonDigits value) 0 11)
      = Nat.min 11 (digitCount value).
Proof.
  intro value. unfold JS.substring. simpl Nat.sub.
  now rewrite substring_0_length, replaceNonDigits_length.
Qed.

(** X3. A value with 11 digits or more is formatted as XX-XXXXXXXX-X: groups
    of 2, 8 and 1 characters that together are the first 11 digits. *)
Theorem X3_formatCuit_shape :
  forall value : string,
    (11 <= digitCount value)%nat ->
    exists a b c : string,
      formatCuit value = (a ++ "-" ++ b ++ "-" ++ c)%string
      /\ String.length a = 2%nat /\ String.length b = 8%nat
      /\ String.length c = 1%nat
      /\ (a ++ b ++ c)%string = JS.substring (cleanCuit value) 0 11.
Proof.
  intros value H. unfold formatCuit, cleanCuit.
  pose proof (limited_length value) as L.
  rewrite Nat.min_l in L by exact H.
  set (limited := JS.substring (JS.replaceNonDigits value) 0 11) in *.
  rewrite L. cbn [Nat.leb].
  exists (JS.substring limited 0 2), (JS.substring limited 2 10),
         (JSExtra.substringFrom limited 10).
  split; [reflexivity|].
  unfold JS.substring, JSExtra.substringFrom. simpl Nat.sub.
  rewrite !substring_length, L. simpl Nat.sub.
  repeat split; try reflexivity.
  pose proof (substring_middle_rest 2 8 limited) as M. simpl Nat.add in M.
  unfold JSExtra.substringFrom in M. rewrite L in M. simpl Nat.sub in M.
  rewrite M.
  pose proof (substring_prefix_rest 2 limited) as P.
  unfold JSExtra.substringFrom in P. rewrite L in P. exact P.
Qed.

Lemma X3_witness :
  exists a b c : string,
    formatCuit "20123456786" = (a ++ "-" ++ b ++ "-" ++ c)%string
    /\ String.length a = 2%nat /\ String.length b = 8%nat
    /\ String.length c = 1%nat
    /\ (a ++ b ++ c)%string = JS.substring (cleanCuit "20123456786") 0 11.
Proof.
  apply (X3_formatCuit_shape "20123456786"). vm_compute. lia.
Defined.

(** The validators read their argument through its digits only. *)
Lemma isValidCuit_by_digits :
  forall s t,
    JS.replaceNonDigits s = JS.replaceNonDigits t -> isValidCuit s = isValidCuit t.
Proof.
  intros s t E. unfold isValidCuit, validateCuitFormat, validateCuitChecksum.
  now rewrite E.
Qed.

Lemma replaceNonDigits_idempotent :
  forall s, JS.replaceNonDigits (JS.replaceNonDigits s) = JS.replaceNonDigits s.
Proof.
  intro s. apply replaceNonDigits_id, replaceNonDigits_allDigits.
Qed.

(** X5. Validation does not see the formatting: a value is valid exactly
    when its digits are, and a formatted value is valid exactly when the
    first 11 digits of the value are. *)
Theorem X5_isValidCuit_ignores_formatting :
  forall value : string,
    isValidCuit value = isValidCuit (cleanCuit value)
    /\ isValidCuit (formatCuit value)
       = isValidCuit (JS.substring (cleanCuit value) 0 11).
Proof.
  intro value. unfold cleanCuit. split; apply isValidCuit_by_digits.
  - symmetry. apply replaceNonDigits_idempotent.
  - rewrite formatCuit_digits. symmetry.
    apply replaceNonDigits_id. apply (limited_facts value).
Qed.

Lemma isValidCuit_length :
  forall cuit, isValidCuit cuit = true -> String.length (cleanCuit cuit) = 11%nat.
Proof.
  intros cuit H. unfold isValidCuit, validateCuitFormat in H.
  apply andb_true_iff in H. destruct H as [H _]. now apply Nat.eqb_eq in H.
Qed.

(** X6. A CUIT accepted by [isValidCuit] passes the length guard of both
    fetch functions: each makes its one request, to the URL that ends with
    the 11 digits. *)
Theorem X6_valid_cuit_reaches_network :
  forall (netD : Network BCRADebtData) (netH : Network BCRAHistoricalData)
         (cuit : string),
    isValidCuit cuit = true ->
    fst (fetchBCRADebtData netD cuit)
      = [(BCRA_API_BASE_URL ++ "/Deudas/" ++ cleanCuit cuit)%string]
    /\ fst (fetchBCRAHistoricalData netH cuit)
      = [(BCRA_API_BASE_URL ++ "/Deudas/Historicas/" ++ cleanCuit cuit)%string]
    /\ String.length (cleanCuit cuit) = 11%nat
    /\ allDigits (cleanCuit cuit) = true.
Proof.
  intros netD netH cuit H. pose proof (isValidCuit_length cuit H) as L.
  unfold cleanCuit in *. unfold fetchBCRADebtData, fetchBCRAHistoricalData.
  rewrite L. cbn [Nat.eqb negb fst].
  repeat split; try reflexivity. apply replaceNonDigits_allDigits.
Qed.

Lemma X6_witness :
  fst (fetchBCRADebtData (fun _ => Throws OtherError) "20-12345678-6")
    = [(BCRA_API_BASE_URL ++ "/Deudas/" ++ cleanCuit "20-12345678-6")%string]
  /\ fst (fetchBCRAHistoricalData (fun _ => Throws OtherError) "20-12345678-6")
    = [(BCRA_API_BASE_URL ++ "/Deudas/Historicas/" ++ cleanCuit "20-12345678-6")%string]
  /\ String.length (cleanCuit "20-12345678-6") = 11%nat
  /\ allDigits (cleanCuit "20-12345678-6") = true.
Proof.
  apply (X6_valid_cuit_reaches_network
           (fun _ => Throws OtherError) (fun _ => Throws OtherError) "20-12345678-6").
  vm_compute. reflexivity.
Defined.

Lemma fetch_by_digits :
  forall (netD : Network BCRADebtData) (netH : Network BCRAHistoricalData) s t,
    JS.replaceNonDigits s = JS.replaceNonDigits t ->
    fetchBCRADebtData netD s = fetchBCRADebtData netD t
    /\ fetchBCRAHistoricalData netH s = fetchBCRAHistoricalData netH t.
Proof.
  intros netD netH s t E. unfold fetchBCRADebtData, fetchBCRAHistoricalData.
  now rewrite E.
Qed.

(** X7. For a value of at most 11 digits the fetch functions answer the same
    for the formatted value as for the value itself. *)
Theorem X7_fetch_ignores_formatting :
  forall (netD : Network BCRADebtData) (netH : Network BCRAHistoricalData)
         (value : string),
    (digitCount value <= 11)%nat ->
    fetchBCRADebtData netD (formatCuit value) = fetchBCRADebtData netD value
    /\ fetchBCRAHistoricalData netH (formatCuit value)
       = fetchBCRAHistoricalData netH value.
Proof.
  intros netD netH value H. apply fetch_by_digits.
  rewrite formatCuit_digits. unfold JS.substring. simpl Nat.sub.
  apply substring_0_all. now rewrite replaceNonDigits_length.
Qed.

Lemma X7_witness :
  fetchBCRADebtData (fun _ => Throws OtherError) (formatCuit "20123456786")
    = fetchBCRADebtData (fun _ => Throws OtherError) "20123456786"
  /\ fetchBCRAHistoricalData (fun _ => Throws OtherError) (formatCuit "20123456786")
     = fetchBCRAHistoricalData (fun _ => Throws OtherError) "20123456786".
Proof.
  apply (X7_fetch_ignores_formatting
           (fun _ => Throws OtherError) (fun _ => Throws OtherError) "20123456786").
  vm_compute. lia.
Defined.

(* ------------------------------------------------------------------ *)
(** ** The check digit                                                  *)
(* ------------------------------------------------------------------ *)

Lemma code_range : forall c, 0 <= JS.code c < 256.
Proof.
  intro c. unfold JS.code.
  pose proof (N_ascii_bounded c) as B. lia.
Qed.

Lemma code_inj : forall c d, JS.code c = JS.code d -> c = d.
Proof.
  intros c d H. unfold JS.code in H.
  rewrite <- (ascii_N_embedding c), <- (ascii_N_embedding d).
  f_equal. lia.
Qed.

Lemma code_ascii_of_N :
  forall n, (n < 256)%N -> JS.code (ascii_of_N n) = Z.of_N n.
Proof.
  intros n H. unfold JS.code. now rewrite N_ascii_embedding.
Qed.

Lemma isDigit_code : forall c, JS.isDigit c = true <-> 48 <= JS.code c <= 57.
Proof.
  intro c. unfold JS.isDigit. rewrite andb_true_iff, !Z.leb_le. tauto.
Qed.

(** The weighted sum of the first ten digits, as the loop computes it. *)
Lemma isValidCuit_eleven :
  forall a0 a1 a2 a3 a4 a5 a6 a7 a8 a9 x,
    JS.isDigit a0 = true -> JS.isDigit a1 = true -> JS.isDigit a2 = true ->
    JS.isDigit a3 = true -> JS.isDigit a4 = true -> JS.isDigit a5 = true ->
    JS.isDigit a6 = true -> JS.isDigit a7 = true -> JS.isDigit a8 = true ->
    JS.isDigit a9 = true ->
    let sum :=
      0 + (JS.code a0 - 48) * 5 + (JS.code a1 - 48) * 4 + (JS.code a2 - 48) * 3
      + (JS.code a3 - 48) * 2 + (JS.code a4 - 48) * 7 + (JS.code a5 - 48) * 6
      + (JS.code a6 - 48) * 5 + (JS.code a7 - 48) * 4 + (JS.code a8 - 48) * 3
      + (JS.code a9 - 48) * 2 in
    let remainder := Z.rem sum 11 in
    let checkDigit := if remainder <? 2 then remainder else 11 - remainder in
    isValidCuit
      (String a0 (String a1 (String a2 (String a3 (String a4 (String a5
         (String a6 (String a7 (String a8 (String a9 (String x EmptyString)))))))))))
    = JS.isDigit x && (checkDigit =? JS.code x - 48).
Proof.
  intros a0 a1 a2 a3 a4 a5 a6 a7 a8 a9 x H0 H1 H2 H3 H4 H5 H6 H7 H8 H9.
  cbv zeta.
  unfold isValidCuit, validateCuitFormat, validateCuitChecksum.
  cbn [JS.replaceNonDigits]. rewrite H0, H1, H2, H3, H4, H5, H6, H7, H8, H9.
  destruct (JS.isDigit x); [|reflexivity].
  cbn [String.length Nat.eqb negb andb list_ascii_of_string map seq fold_left nth
       multipliers].
  unfold JSExtra.Number_ofDigit. reflexivity.
Qed.

Lemma string_length_10 :
  forall s, String.length s = 10%nat ->
    exists a0 a1 a2 a3 a4 a5 a6 a7 a8 a9,
      s = String a0 (String a1 (String a2 (String a3 (String a4 (String a5
            (String a6 (String a7 (String a8 (String a9 EmptyString))))))))).
Proof.
  intros s H.
  destruct s as [|a0 [|a1 [|a2 [|a3 [|a4 [|a5 [|a6 [|a7 [|a8 [|a9 [|b s]]]]]]]]]]];
    try discriminate H.
  now exists a0, a1, a2, a3, a4, a5, a6, a7, a8, a9.
Qed.

(** X4. Ten digits have exactly one check digit: one character that makes
    the eleven a valid CUIT, and that character is a digit. *)
Theorem X4_check_digit_exists_and_is_unique :
  forall prefix : string,
    String.length prefix = 10%nat -> allDigits prefix = true ->
    exists d : ascii,
      JS.isDigit d = true
      /\ isValidCuit (prefix ++ String d EmptyString) = true
      /\ forall d' : ascii,
           isValidCuit (prefix ++ String d' EmptyString) = true -> d' = d.
Proof.
  intros prefix Hlen Hd.
  destruct (string_length_10 prefix Hlen)
    as (a0 & a1 & a2 & a3 & a4 & a5 & a6 & a7 & a8 & a9 & ->).
  rewrite !allDigits_cons in Hd.
  repeat (apply andb_true_iff in Hd; destruct Hd as [?H Hd]).
  cbn [String.append].
  pose proof (isValidCuit_eleven a0 a1 a2 a3 a4 a5 a6 a7 a8 a9) as V.
  specialize (fun x => V x H H0 H1 H2 H3 H4 H5 H6 H7 H8). cbv zeta in V.
  apply isDigit_code in H, H0, H1, H2, H3, H4, H5, H6, H7, H8.
  set (sum := 0 + (JS.code a0 - 48) * 5 + (JS.code a1 - 48) * 4 + (JS.code a2 - 48) * 3
      + (JS.code a3 - 48) * 2 + (JS.code a4 - 48) * 7 + (JS.code a5 - 48) * 6
      + (JS.code a6 - 48) * 5 + (JS.code a7 - 48) * 4 + (JS.code a8 - 48) * 3
      + (JS.code a9 - 48) * 2) in *.
  assert (Hs : 0 <= sum) by (subst sum; lia).
  assert (Hr : 0 <= Z.rem sum 11 < 11) by (apply Z.rem_bound_pos; lia).
  set (checkDigit := if Z.rem sum 11 <? 2 then Z.rem sum 11 else 11 - Z.rem sum 11) in *.
  assert (Hc : 0 <= checkDigit <= 9).
  { subst checkDigit. destruct (Z.ltb_spec (Z.rem sum 11) 2); lia. }
  assert (Hcode : JS.code (ascii_of_N (Z.to_N (48 + checkDigit))) = 48 + checkDigit).
  { rewrite code_ascii_of_N by lia. lia. }
  exists (ascii_of_N (Z.to_N (48 + checkDigit))).
  assert (Hdig : JS.isDigit (ascii_of_N (Z.to_N (48 + checkDigit))) = true)
    by (apply isDigit_code; lia).
  split; [exact Hdig|]. split.
  - rewrite V, Hdig, Hcode. cbn [andb]. apply Z.eqb_eq. lia.
  - intros d' Hv. rewrite V in Hv. apply andb_true_iff in Hv.
    destruct Hv as [_ Hv]. apply Z.eqb_eq in Hv.
    apply code_inj. lia.
Qed.

Lemma X4_witness :
  exists d : ascii,
    JS.isDigit d = true
    /\ isValidCuit ("2012345678" ++ String d EmptyString) = true
    /\ forall d' : ascii,
         isValidCuit ("2012345678" ++ String d' EmptyString) = true -> d' = d.
Proof.
  apply (X4_check_digit_exists_and_is_unique "2012345678"); reflexivity.
Defined.

Example check_digit_samples :
  isValidCuit "20-12345678-6" = true
  /\ isValidCuit "20-12345678-1" = false
  /\ isValidCuit "20123456786" = true
  /\ isValidCuit "2012345678" = false
  /\ formatCuit "20123456786" = "20-12345678-6"%string
  /\ formatCuit "201234" = "20-1234"%string
  /\ formatCuit "2" = "2"%string
  /\ formatCuit "20-12345678-6999" = "20-12345678-6"%string.
Proof. vm_compute. repeat split; reflexivity. Qed.

(* ------------------------------------------------------------------ *)
(** ** The bureau client: every outcome of a request                    *)
(* ------------------------------------------------------------------ *)

Ltac status_leaf N :=
  solve [ now elim N
        | eexists; split; [reflexivity|];
          split; [reflexivity|]; intros l ->; reflexivity ].

Ltac status_cases st N :=
  destruct st as [|st|st]; try status_leaf N;
  repeat (destruct st as [st|st|]; try status_leaf N).

Lemma fetchBCRADebtData_body :
  forall (net : Network BCRADebtData) cuit data,
    digitCount cuit = 11%nat -> net (debtUrl cuit) = Body data ->
    (ApiResponse.status data = 200 ->
       snd (fetchBCRADebtData net cuit)
         = match ApiResponse.results data with
           | Some r => inr r
           | None => inl noResults
           end)
    /\ (ApiResponse.status data <> 200 ->
        exists e, snd (fetchBCRADebtData net cuit) = inl e
                  /\ ApiError.status e = ApiResponse.status data
                  /\ forall l, ApiResponse.errorMessages data = Some l ->
                               ApiError.errorMessages e = l).
Proof.
  intros net cuit data Hn Hnet. unfold debtUrl, cleanCuit in Hnet.
  unfold fetchBCRADebtData. rewrite replaceNonDigits_length, Hn.
  cbn [Nat.eqb negb snd]. rewrite Hnet.
  destruct data as [st res em]. cbn [ApiResponse.status ApiResponse.results
                                     ApiResponse.errorMessages].
  split.
  - intros ->. now destruct res.
  - intro N. status_cases st N.
Qed.

Lemma fetchBCRAHistoricalData_body :
  forall (net : Network BCRAHistoricalData) cuit data,
    digitCount cuit = 11%nat -> net (historicalUrl cuit) = Body data ->
    (ApiResponse.status data = 200 ->
       snd (fetchBCRAHistoricalData net cuit)
         = match ApiResponse.results data with
           | Some r => inr r
           | None => inl noResults
           end)
    /\ (ApiResponse.status data <> 200 ->
        exists e, snd (fetchBCRAHistoricalData net cuit) = inl e
                  /\ ApiError.status e = ApiResponse.status data
                  /\ forall l, ApiResponse.errorMessages data = Some l ->
                               ApiError.errorMessages e = l).
Proof.
  intros net cuit data Hn Hnet. unfold historicalUrl, cleanCuit in Hnet.
  unfold fetchBCRAHistoricalData. rewrite replaceNonDigits_length, Hn.
  cbn [Nat.eqb negb snd]. rewrite Hnet.
  destruct data as [st res em]. cbn [ApiResponse.status ApiResponse.results
                                     ApiResponse.errorMessages].
  split.
  - intros ->. now destruct res.
  - intro N. status_cases st N.
Qed.

Lemma fetchBCRADebtData_throws :
  forall (net : Network BCRADebtData) cuit t,
    digitCount cuit = 11%nat -> net (debtUrl cuit) = Throws t ->
    exists e, snd (fetchBCRADebtData net cuit) = inl e
              /\ error_explained (Throws t : FetchOutcome BCRADebtData) e.
Proof.
  intros net cuit t Hn Hnet. unfold debtUrl, cleanCuit in Hnet.
  unfold fetchBCRADebtData. rewrite replaceNonDigits_length, Hn.
  cbn [Nat.eqb negb snd]. rewrite Hnet.
  destruct t as [e'|msg|]; cbn [error_explained].
  - now exists e'.
  - destruct (JS.includes msg "fetch"); eexists; split; try reflexivity; now split.
  - eexists; split; [reflexivity|]. now split.
Qed.

Lemma fetchBCRAHistoricalData_throws :
  forall (net : Network BCRAHistoricalData) cuit t,
    digitCount cuit = 11%nat -> net (historicalUrl cuit) = Throws t ->
    exists e, snd (fetchBCRAHistoricalData net cuit) = inl e
              /\ error_explained (Throws t : FetchOutcome BCRAHistoricalData) e.
Proof.
  intros net cuit t Hn Hnet. unfold historicalUrl, cleanCuit in Hnet.
  unfold fetchBCRAHistoricalData. rewrite replaceNonDigits_length, Hn.
  cbn [Nat.eqb negb snd]. rewrite Hnet.
  destruct t as [e'|msg|]; cbn [error_explained].
  - now exists e'.
  - destruct (JS.includes msg "fetch"); eexists; split; try reflexivity; now split.
  - eexists; split; [reflexivity|]. now split.
Qed.

Lemma fetch_invalid :
  forall (netD : Network BCRADebtData) (netH : Network BCRAHistoricalData) cuit,
    digitCount cuit <> 11%nat ->
    fetchBCRADebtData netD cuit = ([], inl invalidIdentifier)
    /\ fetchBCRAHistoricalData netH cuit = ([], inl invalidIdentifier).
Proof.
  intros netD netH cuit Hn.
  unfold fetchBCRADebtData, fetchBCRAHistoricalData.
  rewrite replaceNonDigits_length.
  apply Nat.eqb_neq in Hn. rewrite Hn. simpl. split; reflexivity.
Qed.

Lemma fetchBCRADebtData_resolves_iff :
  forall (net : Network BCRADebtData) cuit r,
    snd (fetchBCRADebtData net cuit) = inr r
    <-> digitCount cuit = 11%nat
        /\ exists data, net (debtUrl cuit) = Body data
                        /\ ApiResponse.status data = 200
                        /\ ApiResponse.results data = Some r.
Proof.
  intros net cuit r. split.
  - intro H.
    destruct (Nat.eq_dec (digitCount cuit) 11) as [Hn|Hn].
    2:{ destruct (fetch_invalid net (fun _ => Throws OtherError) cuit Hn) as [E _].
        rewrite E in H. discriminate H. }
    split; [exact Hn|].
    destruct (net (debtUrl cuit)) as [t|data] eqn:Hnet.
    + destruct (fetchBCRADebtData_throws net cuit t Hn Hnet) as (e & E & _).
      rewrite E in H. discriminate H.
    + exists data. split; [reflexivity|].
      destruct (fetchBCRADebtData_body net cuit data Hn Hnet) as [B200 Bother].
      destruct (Z.eq_dec (ApiResponse.status data) 200) as [S|S].
      * split; [exact S|]. rewrite (B200 S) in H.
        destruct (ApiResponse.results data); [congruence | discriminate H].
      * destruct (Bother S) as (e & E & _). rewrite E in H. discriminate H.
  - intros (Hn & data & Hnet & S & Hr).
    destruct (fetchBCRADebtData_body net cuit data Hn Hnet) as [B200 _].
    rewrite (B200 S), Hr. reflexivity.
Qed.

Lemma fetchBCRAHistoricalData_resolves_iff :
  forall (net : Network BCRAHistoricalData) cuit r,
    snd (fetchBCRAHistoricalData net cuit) = inr r
    <-> digitCount cuit = 11%nat
        /\ exists data, net (historicalUrl cuit) = Body data
                        /\ ApiResponse.status data = 200
                        /\ ApiResponse.results data = Some r.
Proof.
  intros net cuit r. split.
  - intro H.
    destruct (Nat.eq_dec (digitCount cuit) 11) as [Hn|Hn].
    2:{ destruct (fetch_invalid (fun _ => Throws OtherError) net cuit Hn) as [_ E].
        rewrite E in H. discriminate H. }
    split; [exact Hn|].
    destruct (net (historicalUrl cuit)) as [t|data] eqn:Hnet.
    + destruct (fetchBCRAHistoricalData_throws net cuit t Hn Hnet) as (e & E & _).
      rewrite E in H. discriminate H.
    + exists data. split; [reflexivity|].
      destruct (fetchBCRAHistoricalData_body net cuit data Hn Hnet) as [B200 Bother].
      destruct (Z.eq_dec (ApiResponse.status data) 200) as [S|S].
      * split; [exact S|]. rewrite (B200 S) in H.
        destruct (ApiResponse.results data); [congruence | discriminate H].
      * destruct (Bother S) as (e & E & _). rewrite E in H. discriminate H.
  - intros (Hn & data & Hnet & S & Hr).
    destruct (fetchBCRAHistoricalData_body net cuit data Hn Hnet) as [B200 _].
    rewrite (B200 S), Hr. reflexivity.
Qed.

(** X8. A fetch function resolves to a record exactly when the identifier
    has 11 digits and the request yields a body of status 200 that carries
    that record; in every other case it throws. *)
Theorem X8_fetch_resolves_exactly_on_200_with_results :
  forall (netD : Network BCRADebtData) (netH : Network BCRAHistoricalData)
         (cuit : string),
    (forall r,
        snd (fetchBCRADebtData netD cuit) = inr r
        <-> digitCount cuit = 11%nat
            /\ exists data, netD (debtUrl cuit) = Body data
                            /\ ApiResponse.status data = 200
                            /\ ApiResponse.results data = Some r)
    /\ (forall r,
        snd (fetchBCRAHistoricalData netH cuit) = inr r
        <-> digitCount cuit = 11%nat
            /\ exists data, netH (historicalUrl cuit) = Body data
                            /\ ApiResponse.status data = 200
                            /\ ApiResponse.results data = Some r).
Proof.
  intros netD netH cuit. split; intro r.
  - apply fetchBCRADebtData_resolves_iff.
  - apply fetchBCRAHistoricalData_resolves_iff.
Qed.

Lemma fetchBCRADebtData_error_explained :
  forall (net : Network BCRADebtData) cuit e,
    digitCount cuit = 11%nat ->
    snd (fetchBCRADebtData net cuit) = inl e ->
    error_explained (net (debtUrl cuit)) e.
Proof.
  intros net cuit e Hn H.
  destruct (net (debtUrl cuit)) as [t|data] eqn:Hnet.
  - destruct (fetchBCRADebtData_throws net cuit t Hn Hnet) as (e' & E & X).
    rewrite E in H. now injection H as <-.
  - destruct (fetchBCRADebtData_body net cuit data Hn Hnet) as [B200 Bother].
    cbn [error_explained].
    destruct (Z.eq_dec (ApiResponse.status data) 200) as [S|S].
    + rewrite (B200 S) in H.
      destruct (ApiResponse.results data) as [r|]; [discriminate H|].
      injection H as <-. split; [now rewrite S|]. split; [now split|].
      intro N. contradiction.
    + destruct (Bother S) as (e' & E & St & Msg). rewrite E in H.
      injection H as <-. split; [exact St|]. split; [intro; contradiction|].
      intros _. exact Msg.
Qed.

Lemma fetchBCRAHistoricalData_error_explained :
  forall (net : Network BCRAHistoricalData) cuit e,
    digitCount cuit = 11%nat ->
    snd (fetchBCRAHistoricalData net cuit) = inl e ->
    error_explained (net (historicalUrl cuit)) e.
Proof.
  intros net cuit e Hn H.
  destruct (net (historicalUrl cuit)) as [t|data] eqn:Hnet.
  - destruct (fetchBCRAHistoricalData_throws net cuit t Hn Hnet) as (e' & E & X).
    rewrite E in H. now injection H as <-.
  - destruct (fetchBCRAHistoricalData_body net cuit data Hn Hnet) as [B200 Bother].
    cbn [error_explained].
    destruct (Z.eq_dec (ApiResponse.status data) 200) as [S|S].
    + rewrite (B200 S) in H.
      destruct (ApiResponse.results data) as [r|]; [discriminate H|].
      injection H as <-. split; [now rewrite S|]. split; [now split|].
      intro N. contradiction.
    + destruct (Bother S) as (e' & E & St & Msg). rewrite E in H.
      injection H as <-. split; [exact St|]. split; [intro; contradiction|].
      intros _. exact Msg.
Qed.

(** X9. For an identifier of 11 digits, an error thrown by a fetch function
    is explained by the outcome of its request: for a body it carries the
    status of the body (with status 200 the body had no results) and, for a
    status other than 200, the diagnostics the bureau sent when it sent any;
    a [BCRAApiError] thrown by the request is passed on as it is; any other
    thrown value gives status 0 with one diagnostic. *)
Theorem X9_thrown_error_explained_by_outcome :
  forall (netD : Network BCRADebtData) (netH : Network BCRAHistoricalData)
         (cuit : string),
    digitCount cuit = 11%nat ->
    (forall e, snd (fetchBCRADebtData netD cuit) = inl e ->
               error_explained (netD (debtUrl cuit)) e)
    /\ (forall e, snd (fetchBCRAHistoricalData netH cuit) = inl e ->
                  error_explained (netH (historicalUrl cuit)) e).
Proof.
  intros netD netH cuit Hn. split; intros e H.
  - now apply fetchBCRADebtData_error_explained.
  - now apply fetchBCRAHistoricalData_error_explained.
Qed.

Lemma X9_witness :
  (forall e, snd (fetchBCRADebtData netNotFound "20-12345678-6") = inl e ->
             error_explained (@netNotFound BCRADebtData (debtUrl "20-12345678-6")) e)
  /\ (forall e, snd (fetchBCRAHistoricalData netDown "20-12345678-6") = inl e ->
                error_explained (@netDown BCRAHistoricalData (historicalUrl "20-12345678-6")) e).
Proof.
  apply (X9_thrown_error_explained_by_outcome netNotFound netDown "20-12345678-6").
  reflexivity.
Defined.

Example fetch_samples :
  fetchBCRADebtData netNotFound "20-12345678-6"
    = ([debtUrl "20123456786"],
       inl {| ApiError.message := "No data found for the provided CUIT";
              ApiError.status := 404;
              ApiError.errorMessages := ["Sin datos"%string] |})
  /\ fetchBCRAHistoricalData netDown "20123456786"
    = ([historicalUrl "20123456786"],
       inl {| ApiError.message := "Network error: Unable to connect to BCRA API";
              ApiError.status := 0;
              ApiError.errorMessages :=
                ["Error de conexión con la API del BCRA. Verifique su conexión a internet."%string] |})
  /\ fetchBCRAHistoricalData (netAnswers sampleHistory) "20123456786"
    = ([historicalUrl "20123456786"], inr sampleHistory).
Proof. vm_compute. repeat split; reflexivity. Qed.

(* ------------------------------------------------------------------ *)
(** ** The assessment and its cache                                     *)
(* ------------------------------------------------------------------ *)

Lemma Map_get_set_same :
  forall m key v, Map_get (Map_set m key v) key = Some v.
Proof.
  induction m as [|[k w] m IH]; intros key v; simpl.
  - now rewrite String.eqb_refl.
  - destruct (String.eqb k key) eqn:E; simpl; rewrite E; [reflexivity | apply IH].
Qed.

Lemma Map_get_set_other :
  forall m key key' v, key <> key' ->
    Map_get (Map_set m key v) key' = Map_get m key'.
Proof.
  induction m as [|[k w] m IH]; intros key key' v N; simpl.
  - apply String.eqb_neq in N. now rewrite N.
  - destruct (String.eqb k key) eqn:E; simpl.
    + apply String.eqb_eq in E. subst k.
      apply String.eqb_neq in N. now rewrite N.
    + destruct (String.eqb k key'); [reflexivity | now apply IH].
Qed.

(** An assessment served from the cache. *)
Lemma performLoanAssessment_hit :
  forall now netD netH cache cuit cached,
    Map_get cache (cleanCuit cuit) = Some cached ->
    performLoanAssessment now netD netH cache cuit = ([], cached, cache).
Proof.
  intros now netD netH cache cuit cached H.
  unfold performLoanAssessment. unfold cleanCuit in H. now rewrite H.
Qed.

(** An assessment that finds nothing in the cache. *)
Lemma performLoanAssessment_miss :
  forall now netD netH cache cuit,
    Map_get cache (cleanCuit cuit) = None ->
    let d := fetchBCRADebtData netD cuit in
    let h := fetchBCRAHistoricalData netH cuit in
    let r := assessmentOf now (cleanCuit cuit) (fetched (snd d)) (fetched (snd h)) in
    performLoanAssessment now netD netH cache cuit
      = (fst d ++ fst h, r, Map_set cache (cleanCuit cuit) r).
Proof.
  intros now netD netH cache cuit H d h r.
  unfold performLoanAssessment. unfold cleanCuit in *. rewrite H.
  destruct (fetch_by_digits netD netH (JS.replaceNonDigits cuit) cuit
              (replaceNonDigits_idempotent cuit)) as [ED EH].
  rewrite ED, EH. fold d. fold h.
  destruct d as [reqD [eD|rD]]; destruct h as [reqH [eH|rH]]; reflexivity.
Qed.

(** X10. Once a CUIT has been assessed, a further call for a CUIT with the
    same digits, whatever the clock and the networks, makes no request,
    resolves to the same object and leaves the cache as it is. *)
Theorem X10_repeated_assessment_served_from_cache :
  forall (now now' : Clock)
         (netD netD' : Network BCRADebtData)
         (netH netH' : Network BCRAHistoricalData)
         (cache : AssessmentCache) (cuit cuit' : string),
    cleanCuit cuit' = cleanCuit cuit ->
    let out := performLoanAssessment now netD netH cache cuit in
    performLoanAssessment now' netD' netH' (snd out) cuit'
      = ([], snd (fst out), snd out).
Proof.
  intros now now' netD netD' netH netH' cache cuit cuit' E out. subst out.
  destruct (Map_get cache (cleanCuit cuit)) as [cached|] eqn:G.
  - rewrite (performLoanAssessment_hit now netD netH cache cuit cached G).
    cbn [fst snd]. apply performLoanAssessment_hit. now rewrite E.
  - rewrite (performLoanAssessment_miss now netD netH cache cuit G).
    cbv zeta. cbn [fst snd]. apply performLoanAssessment_hit.
    rewrite E. apply Map_get_set_same.
Qed.

Lemma X10_witness :
  let out := performLoanAssessment march2024 netDown (netAnswers cleanHistory) []
               "20-12345678-6" in
  performLoanAssessment march2024 (netAnswers sampleDebt) netDown (snd out) "20123456786"
    = ([], snd (fst out), snd out).
Proof.
  apply (X10_repeated_assessment_served_from_cache march2024 march2024
           netDown (netAnswers sampleDebt) (netAnswers cleanHistory) netDown
           [] "20-12345678-6" "20123456786").
  reflexivity.
Defined.

Lemma status_without_history :
  forall now d, status (analyzeBCRAEligibility now d None) = BCRA_PENDING.
Proof. intros now [d|]; reflexivity. Qed.

Lemma status_without_period :
  forall now d h,
    sortedPeriods h = [] -> status (analyzeBCRAEligibility now d (Some h)) = BCRA_PENDING.
Proof.
  intros now d h E. unfold analyzeBCRAEligibility. fold (sortedPeriods h).
  rewrite E. now destruct d.
Qed.

Lemma assessmentOf_coherent :
  forall now key d h, coherent (assessmentOf now key d h).
Proof.
  intros now key d h. unfold coherent, assessmentOf.
  cbn [result bcraEligibilityStatus bcraHistoricalData bcraEligibilityAnalysis].
  split; [reflexivity|]. intro N.
  destruct h as [hh|].
  - assert (A : match d, Some hh with
                | None, None => None
                | _, _ => Some (analyzeBCRAEligibility now d (Some hh))
                end = Some (analyzeBCRAEligibility now d (Some hh)))
      by (now destruct d).
    rewrite A in *. clear A.
    destruct (sortedPeriods hh) as [|p rest] eqn:Hs.
    + exfalso. apply N. now apply status_without_period.
    + exists hh, (analyzeBCRAEligibility now d (Some hh)).
      split; [reflexivity|]. split.
      * intro E. unfold sortedPeriods in Hs. rewrite E in Hs. discriminate Hs.
      * split; [reflexivity|]. split; [reflexivity|].
        rewrite (analyze_past_early_returns now d hh p rest Hs).
        cbv zeta. cbn [status failureReasons].
        rewrite <- length_zero_nil.
        destruct (Nat.eqb _ 0); split; intro H; try reflexivity; discriminate H.
  - exfalso. apply N. destruct d as [dd|]; [apply status_without_history | reflexivity].
Qed.

(** X11. The cache stays coherent and every answer is coherent: the outcome
    is eligible, not eligible or pending as the status is APTO, NO_APTO or
    PENDING, and a status other than PENDING always comes with a retrieved
    historical record that has a period and with the analysis, APTO exactly
    when the analysis lists no failure reason. *)
Theorem X11_assessments_are_coherent :
  forall (now : Clock) (netD : Network BCRADebtData)
         (netH : Network BCRAHistoricalData)
         (cache : AssessmentCache) (cuit : string),
    cache_coherent cache ->
    let out := performLoanAssessment now netD netH cache cuit in
    coherent (snd (fst out)) /\ cache_coherent (snd out).
Proof.
  intros now netD netH cache cuit Hc out. subst out.
  destruct (Map_get cache (cleanCuit cuit)) as [cached|] eqn:G.
  - rewrite (performLoanAssessment_hit now netD netH cache cuit cached G).
    cbn [fst snd]. split; [now apply (Hc (cleanCuit cuit)) | exact Hc].
  - rewrite (performLoanAssessment_miss now netD netH cache cuit G).
    cbv zeta. cbn [fst snd]. split; [apply assessmentOf_coherent|].
    intros key r Hr.
    destruct (string_dec (cleanCuit cuit) key) as [<-|Nk].
    + rewrite Map_get_set_same in Hr. injection Hr as <-.
      apply assessmentOf_coherent.
    + rewrite Map_get_set_other in Hr by exact Nk. now apply (Hc key).
Qed.

Lemma X11_witness :
  let out := performLoanAssessment march2024 netDown (netAnswers cleanHistory) []
               "20-12345678-6" in
  coherent (snd (fst out)) /\ cache_coherent (snd out).
Proof.
  apply (X11_assessments_are_coherent march2024 netDown (netAnswers cleanHistory)
           [] "20-12345678-6").
  intros key r H. discriminate H.
Defined.

(** X12. When the historical record cannot be retrieved, an assessment that
    is not served from the cache is pending, whatever the current record
    holds: it is never eligible and never not eligible. *)
Theorem X12_no_history_gives_pending :
  forall (now : Clock) (netD : Network BCRADebtData)
         (netH : Network BCRAHistoricalData)
         (cache : AssessmentCache) (cuit : string) (e : BCRAApiError),
    Map_get cache (cleanCuit cuit) = None ->
    snd (fetchBCRAHistoricalData netH cuit) = inl e ->
    let r := snd (fst (performLoanAssessment now netD netH cache cuit)) in
    result r = pending
    /\ bcraEligibilityStatus r = BCRA_PENDING
    /\ bcraHistoricalData r = None
    /\ bcraData r = fetched (snd (fetchBCRADebtData netD cuit)).
Proof.
  intros now netD netH cache cuit e G H r. subst r.
  rewrite (performLoanAssessment_miss now netD netH cache cuit G).
  cbv zeta. cbn [fst snd]. rewrite H. unfold assessmentOf.
  cbn [fetched result bcraEligibilityStatus bcraHistoricalData bcraData].
  destruct (fetched (snd (fetchBCRADebtData netD cuit))) as [d|];
    repeat split; reflexivity.
Qed.

Lemma X12_witness :
  let r := snd (fst (performLoanAssessment march2024 (netAnswers sampleDebt) netDown []
                       "20-12345678-6")) in
  result r = pending
  /\ bcraEligibilityStatus r = BCRA_PENDING
  /\ bcraHistoricalData r = None
  /\ bcraData r = fetched (snd (fetchBCRADebtData (netAnswers sampleDebt) "20-12345678-6")).
Proof.
  apply (X12_no_history_gives_pending march2024 (netAnswers sampleDebt) netDown []
           "20-12345678-6"
           {| ApiError.message := "Network error: Unable to connect to BCRA API";
              ApiError.status := 0;
              ApiError.errorMessages :=
                ["Error de conexión con la API del BCRA. Verifique su conexión a internet."%string] |});
    reflexivity.
Defined.

(** X13. For an identifier whose digits do not number 11, an assessment that
    is not served from the cache makes no request and is pending, without
    records and without analysis; the answer is stored under the digits. *)
Theorem X13_invalid_identifier_assessed_without_network :
  forall (now : Clock) (netD : Network BCRADebtData)
         (netH : Network BCRAHistoricalData)
         (cache : AssessmentCache) (cuit : string),
    digitCount cuit <> 11%nat ->
    Map_get cache (cleanCuit cuit) = None ->
    let out := performLoanAssessment now netD netH cache cuit in
    let r := snd (fst out) in
    fst (fst out) = []
    /\ result r = pending
    /\ bcraEligibilityStatus r = BCRA_PENDING
    /\ bcraData r = None /\ bcraHistoricalData r = None
    /\ bcraEligibilityAnalysis r = None
    /\ Map_get (snd out) (cleanCuit cuit) = Some r.
Proof.
  intros now netD netH cache cuit Hn G out r. subst r out.
  rewrite (performLoanAssessment_miss now netD netH cache cuit G).
  cbv zeta. cbn [fst snd].
  destruct (fetch_invalid netD netH cuit Hn) as [-> ->].
  cbn [fst snd fetched app]. rewrite Map_get_set_same.
  repeat split; reflexivity.
Qed.

Lemma X13_witness :
  let out := performLoanAssessment march2024 (netAnswers sampleDebt)
               (netAnswers cleanHistory) [] "20-1234" in
  let r := snd (fst out) in
  fst (fst out) = []
  /\ result r = pending
  /\ bcraEligibilityStatus r = BCRA_PENDING
  /\ bcraData r = None /\ bcraHistoricalData r = None
  /\ bcraEligibilityAnalysis r = None
  /\ Map_get (snd out) (cleanCuit "20-1234") = Some r.
Proof.
  apply (X13_invalid_identifier_assessed_without_network march2024
           (netAnswers sampleDebt) (netAnswers cleanHistory) [] "20-1234").
  - vm_compute. discriminate.
  - reflexivity.
Defined.

(** X14. For an identifier of 11 digits, an assessment that is not served
    from the cache makes exactly two requests: the current debts, then the
    historical debts, whether or not the first one fails. *)
Theorem X14_assessment_requests_current_then_historical :
  forall (now : Clock) (netD : Network BCRADebtData)
         (netH : Network BCRAHistoricalData)
         (cache : AssessmentCache) (cuit : string),
    digitCount cuit = 11%nat ->
    Map_get cache (cleanCuit cuit) = None ->
    fst (fst (performLoanAssessment now netD netH cache cuit))
      = [debtUrl cuit; historicalUrl cuit].
Proof.
  intros now netD netH cache cuit Hn G.
  rewrite (performLoanAssessment_miss now netD netH cache cuit G).
  cbv zeta. cbn [fst snd].
  unfold fetchBCRADebtData, fetchBCRAHistoricalData.
  rewrite replaceNonDigits_length, Hn. reflexivity.
Qed.

Lemma X14_witness :
  fst (fst (performLoanAssessment march2024 netDown (netAnswers cleanHistory) []
              "20-12345678-6"))
    = [debtUrl "20-12345678-6"; historicalUrl "20-12345678-6"].
Proof.
  apply (X14_assessment_requests_current_then_historical march2024 netDown
           (netAnswers cleanHistory) [] "20-12345678-6");
    reflexivity.
Defined.

Example assessment_samples :
  result (snd (fst (performLoanAssessment march2024 netDown (netAnswers cleanHistory) []
                      "20-12345678-6"))) = eligible
  /\ result (snd (fst (performLoanAssessment march2024 netDown (netAnswers sampleHistory) []
                      "20-12345678-6"))) = not_eligible
  /\ clientName (snd (fst (performLoanAssessment march2024 netDown netDown []
                      "20-12345678-1"))) = Some "Juan Pérez"%string
  /\ clientName (snd (fst (performLoanAssessment march2024 netDown (netAnswers cleanHistory) []
                      "20-12345678-1"))) = Some "PEREZ JUAN"%string.
Proof. vm_compute. repeat split; reflexivity. Qed.

(* ------------------------------------------------------------------ *)
(** ** More on the analyzer                                             *)
(* ------------------------------------------------------------------ *)

Lemma analyze_without_period :
  forall now c h,
    periodos h = [] ->
    analyzeBCRAEligibility now c (Some h)
      = pendingVerdict now "No hay períodos disponibles en el historial".
Proof.
  intros now c h E. unfold analyzeBCRAEligibility. rewrite E. now destruct c.
Qed.

(** X15. A present historical record without periods gives the PENDING
    verdict with the one reason "no periods", whatever the current record;
    and the status is PENDING only for an absent historical record or an
    empty period list. *)
Theorem X15_pending_exactly_without_periods :
  forall (now : Clock) (c : option BCRADebtData),
    (forall h, periodos h = [] ->
       analyzeBCRAEligibility now c (Some h)
         = pendingVerdict now "No hay períodos disponibles en el historial")
    /\ (forall oh,
          status (analyzeBCRAEligibility now c oh) = BCRA_PENDING
          <-> oh = None \/ exists h, oh = Some h /\ periodos h = []).
Proof.
  intros now c. split; [intros h E; now apply analyze_without_period|].
  intro oh. split.
  - apply pending_only_on_early_return.
  - intros [->|(h & -> & E)].
    + apply status_without_history.
    + now rewrite analyze_without_period.
Qed.

Lemma checkReasons_nil :
  forall reason t v,
    checkReasons reason t v = [] <-> (forall x, v = Some x -> x <= t).
Proof.
  intros reason t [x|]; unfold checkReasons.
  - destruct (Z.gtb_spec x t) as [G|G]; split.
    + discriminate.
    + intro H. specialize (H x eq_refl). lia.
    + intros _ y [= <-]. exact G.
    + reflexivity.
  - split; [intros _ y [=] | reflexivity].
Qed.

Lemma windowWorst_bounded :
  forall now n l t,
    (forall x, windowWorst now n l = Some x -> x <= t)
    <-> (forall q, In q (windowPeriods now n l) -> getWorstSituationForPeriod q <= t).
Proof.
  intros now n l t.
  destruct (windowWorst_cases now n l) as [[E N]|[E (w & S & [Hin Hmax])]].
  - rewrite E, N. split; [intros _ q [] | intros _ x [=]].
  - rewrite S. split.
    + intros H q Hq. specialize (H w eq_refl).
      specialize (Hmax (getWorstSituationForPeriod q) (in_map _ _ _ Hq)). lia.
    + intros H x [= <-]. apply in_map_iff in Hin.
      destruct Hin as (q & <- & Hq). now apply H.
Qed.

Lemma windowPeriods_perm :
  forall now n l l', Permutation l l' ->
    Permutation (windowPeriods now n l) (windowPeriods now n l').
Proof. intros now n l l' P. now apply filter_perm. Qed.

(** X16. With a present historical record that has a period, the verdict is
    APTO exactly when the most recent period has worst situation at most 1,
    every period the 6-month test keeps has worst situation at most 1, and
    every period the 12-month test keeps has worst situation at most 2. *)
Theorem X16_apto_exactly_within_thresholds :
  forall (now : Clock) (c : option BCRADebtData) (h : BCRAHistoricalData),
    periodos h <> [] ->
    let a := analyzeBCRAEligibility now c (Some h) in
    status a = BCRA_APTO
    <-> (forall v, currentSituation a = Some v -> v <= 1)
        /\ (forall q, In q (periodos h) ->
              isPeriodWithinMonths (getFullYear now) (getMonth now + 1) (periodo q) 6 = true ->
              getWorstSituationForPeriod q <= 1)
        /\ (forall q, In q (periodos h) ->
              isPeriodWithinMonths (getFullYear now) (getMonth now + 1) (periodo q) 12 = true ->
              getWorstSituationForPeriod q <= 2).
Proof.
  intros now c h Hne a.
  destruct (sortedPeriods_cons h Hne) as (p & rest & Hs).
  subst a. rewrite (analyze_past_early_returns now c h p rest Hs).
  cbv zeta. cbn [status currentSituation]. rewrite <- Hs.
  assert (P : Permutation (periodos h) (sortedPeriods h)) by apply Array_sort_perm.
  assert (W : forall n t,
             (forall q, In q (windowPeriods now n (sortedPeriods h)) ->
                        getWorstSituationForPeriod q <= t)
             <-> (forall q, In q (periodos h) ->
                    isPeriodWithinMonths (getFullYear now) (getMonth now + 1) (periodo q) n = true ->
                    getWorstSituationForPeriod q <= t)).
  { intros n t. unfold windowPeriods. split.
    - intros H q Hq Hw. apply H. apply filter_In. split; [|exact Hw].
      now apply (Permutation_in _ P).
    - intros H q Hq. apply filter_In in Hq. destruct Hq as [Hq Hw].
      apply H; [|exact Hw]. now apply (Permutation_in _ (Permutation_sym P)). }
  pose proof (W 6 1) as W6. pose proof (W 12 2) as W12. clear W.
  pose proof (windowWorst_bounded now 6 (sortedPeriods h) 1) as B6.
  pose proof (windowWorst_bounded now 12 (sortedPeriods h) 2) as B12.
  pose proof (checkReasons_nil reasonCurrent 1 (Some (getWorstSituationForPeriod p))) as C0.
  pose proof (checkReasons_nil reasonLast6 1 (windowWorst now 6 (sortedPeriods h))) as C6.
  pose proof (checkReasons_nil reasonLast12 2 (windowWorst now 12 (sortedPeriods h))) as C12.
  unfold allReasons.
  set (r1 := checkReasons reasonCurrent 1 (Some (getWorstSituationForPeriod p))) in *.
  set (r2 := checkReasons reasonLast6 1 (windowWorst now 6 (sortedPeriods h))) in *.
  set (r3 := checkReasons reasonLast12 2 (windowWorst now 12 (sortedPeriods h))) in *.
  assert (R : (if Nat.eqb (List.length (r1 ++ r2 ++ r3)) 0 then BCRA_APTO else BCRA_NO_APTO)
              = BCRA_APTO <-> r1 = [] /\ r2 = [] /\ r3 = []).
  { split.
    - intro H. destruct (Nat.eqb (List.length (r1 ++ r2 ++ r3)) 0) eqn:E; [|discriminate H].
      apply length_zero_nil in E. apply app_eq_nil in E. destruct E as [E1 E].
      apply app_eq_nil in E. now destruct E.
    - intros (E1 & E2 & E3). rewrite E1, E2, E3. reflexivity. }
  rewrite R. tauto.
Qed.

Lemma X16_witness :
  let a := analyzeBCRAEligibility march2024 None (Some cleanHistory) in
  status a = BCRA_APTO
  <-> (forall v, currentSituation a = Some v -> v <= 1)
      /\ (forall q, In q (periodos cleanHistory) ->
            isPeriodWithinMonths (getFullYear march2024) (getMonth march2024 + 1) (periodo q) 6 = true ->
            getWorstSituationForPeriod q <= 1)
      /\ (forall q, In q (periodos cleanHistory) ->
            isPeriodWithinMonths (getFullYear march2024) (getMonth march2024 + 1) (periodo q) 12 = true ->
            getWorstSituationForPeriod q <= 2).
Proof.
  apply (X16_apto_exactly_within_thresholds march2024 None cleanHistory).
  simpl. discriminate.
Defined.

Lemma windowWorst_perm :
  forall now n l l', Permutation l l' -> windowWorst now n l = windowWorst now n l'.
Proof.
  intros now n l l' P.
  pose proof (windowPeriods_perm now n l l' P) as PW.
  destruct (windowWorst_cases now n l) as [[E N]|[E (w & S & M)]];
    destruct (windowWorst_cases now n l') as [[E' N']|[E' (w' & S' & M')]].
  - now rewrite N, N'.
  - rewrite E in PW. apply Permutation_nil in PW. contradiction.
  - rewrite E' in PW. apply Permutation_sym, Permutation_nil in PW. contradiction.
  - rewrite S, S'. f_equal.
    apply (is_maximum_unique _ _ _ (is_maximum_perm _ _ _ (Permutation_map _ PW) M) M').
Qed.

Lemma sortedPeriods_perm :
  forall h h', Permutation (periodos h) (periodos h') ->
    Permutation (sortedPeriods h) (sortedPeriods h').
Proof.
  intros h h' P. unfold sortedPeriods.
  eapply perm_trans; [apply Permutation_sym, Array_sort_perm|].
  eapply perm_trans; [exact P | apply Array_sort_perm].
Qed.

(** X17. The two window fields do not depend on the order of the periods in
    the input, duplicate labels included. *)
Theorem X17_window_fields_independent_of_order :
  forall (now : Clock) (c : option BCRADebtData) (h h' : BCRAHistoricalData),
    Permutation (periodos h) (periodos h') ->
    last6MonthsWorstSituation (analyzeBCRAEligibility now c (Some h))
      = last6MonthsWorstSituation (analyzeBCRAEligibility now c (Some h'))
    /\ last12MonthsWorstSituation (analyzeBCRAEligibility now c (Some h))
       = last12MonthsWorstSituation (analyzeBCRAEligibility now c (Some h')).
Proof.
  intros now c h h' P.
  pose proof (sortedPeriods_perm h h' P) as PS.
  destruct (sortedPeriods h) as [|p rest] eqn:Hs;
    destruct (sortedPeriods h') as [|p' rest'] eqn:Hs'.
  - apply Array_sort_nil in Hs, Hs'. rewrite !analyze_without_period by assumption.
    now split.
  - apply Permutation_nil in PS. discriminate PS.
  - apply Permutation_sym, Permutation_nil in PS. discriminate PS.
  - rewrite (analyze_past_early_returns now c h p rest Hs).
    rewrite (analyze_past_early_returns now c h' p' rest' Hs').
    cbv zeta. cbn [last6MonthsWorstSituation last12MonthsWorstSituation].
    split; now apply windowWorst_perm.
Qed.

Lemma X17_witness :
  last6MonthsWorstSituation (analyzeBCRAEligibility march2024 None (Some duplicateLabel))
    = last6MonthsWorstSituation (analyzeBCRAEligibility march2024 None (Some duplicateLabelSwapped))
  /\ last12MonthsWorstSituation (analyzeBCRAEligibility march2024 None (Some duplicateLabel))
     = last12MonthsWorstSituation (analyzeBCRAEligibility march2024 None (Some duplicateLabelSwapped)).
Proof.
  apply (X17_window_fields_independent_of_order march2024 None
           duplicateLabel duplicateLabelSwapped).
  apply perm_swap.
Defined.

(** X18. When no label occurs twice, the whole verdict does not depend on the
    order of the periods in the input. *)
Theorem X18_verdict_independent_of_order_for_distinct_labels :
  forall (now : Clock) (c : option BCRADebtData) (h h' : BCRAHistoricalData),
    NoDup (map periodo (periodos h)) ->
    Permutation (periodos h) (periodos h') ->
    analyzeBCRAEligibility now c (Some h) = analyzeBCRAEligibility now c (Some h').
Proof.
  intros now c h h' ND P.
  pose proof (sortedPeriods_perm h h' P) as PS.
  destruct (sortedPeriods h) as [|p rest] eqn:Hs;
    destruct (sortedPeriods h') as [|p' rest'] eqn:Hs'.
  - apply Array_sort_nil in Hs, Hs'. now rewrite !analyze_without_period.
  - apply Permutation_nil in PS. discriminate PS.
  - apply Permutation_sym, Permutation_nil in PS. discriminate PS.
  - rewrite (analyze_past_early_returns now c h p rest Hs).
    rewrite (analyze_past_early_returns now c h' p' rest' Hs').
    cbv zeta.
    assert (V : getWorstSituationForPeriod p = getWorstSituationForPeriod p').
    { apply (distinct_labels_agree (periodos h) ND).
      - apply (sort_head_most_recent _ _ rest), Hs.
      - apply (most_recent_in_perm _ _ _ (Permutation_sym P)).
        apply (sort_head_most_recent _ _ rest'), Hs'. }
    rewrite V, (windowWorst_perm now 6 _ _ PS), (windowWorst_perm now 12 _ _ PS).
    reflexivity.
Qed.

Lemma X18_witness :
  analyzeBCRAEligibility march2024 None (Some sampleHistory)
    = analyzeBCRAEligibility march2024 None (Some sampleHistoryReversed).
Proof.
  apply (X18_verdict_independent_of_order_for_distinct_labels march2024 None
           sampleHistory sampleHistoryReversed).
  - simpl. repeat constructor; simpl; intuition discriminate.
  - apply perm_swap.
Defined.

(* ------------------------------------------------------------------ *)
(** ** Display helpers                                                  *)
(* ------------------------------------------------------------------ *)

Lemma Number_toString_parses :
  forall k, NilZero.int_of_string (JS.Number_toString k) = Some (Z.to_int k).
Proof.
  intro k. unfold JS.Number_toString.
  destruct (to_int_not_nil k). now apply NilZero.isi.
Qed.

Ltac description_leaf :=
  first [ left; split; reflexivity
        | right; left; split; reflexivity
        | right; right; left; split; reflexivity
        | right; right; right; left; split; reflexivity
        | right; right; right; right; left; split; reflexivity
        | right; right; right; right; right; reflexivity ].

Lemma getSituationDescription_cases :
  forall k,
    (k = 1 /\ getSituationDescription k = "Situación Normal"%string)
    \/ (k = 2 /\ getSituationDescription k = "Con Seguimiento Especial / Riesgo Bajo"%string)
    \/ (k = 3 /\ getSituationDescription k = "Con Problemas / Riesgo Medio"%string)
    \/ (k = 4 /\ getSituationDescription k
                 = "Con Alto Riesgo de Insolvencia / Riesgo Alto"%string)
    \/ (k = 5 /\ getSituationDescription k = "Irrecuperable"%string)
    \/ getSituationDescription k = ("Situación " ++ JS.Number_toString k)%string.
Proof.
  intro k. destruct k as [|p|p]; try description_leaf.
  repeat (destruct p as [p|p|]; try description_leaf).
Qed.

Lemma default_description_not_named :
  forall k,
    ("Situación " ++ JS.Number_toString k)%string <> "Situación Normal"%string
    /\ ("Situación " ++ JS.Number_toString k)%string
       <> "Con Seguimiento Especial / Riesgo Bajo"%string
    /\ ("Situación " ++ JS.Number_toString k)%string
       <> "Con Problemas / Riesgo Medio"%string
    /\ ("Situación " ++ JS.Number_toString k)%string
       <> "Con Alto Riesgo de Insolvencia / Riesgo Alto"%string
    /\ ("Situación " ++ JS.Number_toString k)%string <> "Irrecuperable"%string.
Proof.
  intro k. repeat split; intro H; simpl in H; try discriminate H.
  repeat (injection H as H).
  pose proof (Number_toString_parses k) as P. rewrite H in P. discriminate P.
Qed.

(** X19. Two different situation codes never get the same description: the
    five named descriptions differ from each other, and the description of
    any other code cites the code. *)
Theorem X19_getSituationDescription_injective :
  forall a b : Z,
    getSituationDescription a = getSituationDescription b -> a = b.
Proof.
  intros a b H.
  destruct (default_description_not_named a) as (A1 & A2 & A3 & A4 & A5).
  destruct (default_description_not_named b) as (B1 & B2 & B3 & B4 & B5).
  destruct (getSituationDescription_cases a)
    as [[-> Ea]|[[-> Ea]|[[-> Ea]|[[-> Ea]|[[-> Ea]|Ea]]]]];
    destruct (getSituationDescription_cases b)
      as [[-> Eb]|[[-> Eb]|[[-> Eb]|[[-> Eb]|[[-> Eb]|Eb]]]]];
    try reflexivity;
    rewrite Ea, Eb in H;
    try discriminate H;
    try (symmetry in H; contradiction);
    try contradiction.
  simpl in H. repeat (injection H as H). now apply Number_toString_inj.
Qed.

Lemma X19_witness : 3 = 3.
Proof.
  apply (X19_getSituationDescription_injective 3 3). reflexivity.
Defined.

Lemma parseInt10_digits :
  forall c r, JS.isDigit c = true -> allDigits r = true ->
    JSExtra.parseInt10 (String c r) = Some (decimalFrom 0 (String c r)).
Proof.
  intros c r Hc Hr. unfold JSExtra.parseInt10. rewrite (trimStart_digit c r Hc).
  pose proof (parseDigits_first c r Hc Hr) as P.
  destruct (isDigit_cases c Hc) as [->|[->|[->|[->|[->|[->|[->|[->|[->| ->]]]]]]]]];
    cbv beta iota; rewrite P; f_equal; lia.
Qed.

Lemma monthNames_lookup :
  forall m,
    (1 <= m <= 12 ->
       nth_error monthNames (Z.to_nat (m - 1))
         = Some (nth (Z.to_nat (m - 1)) monthNames EmptyString))
    /\ (13 <= m -> nth_error monthNames (Z.to_nat (m - 1)) = None).
Proof.
  intro m. split; intro H.
  - assert (C : m = 1 \/ m = 2 \/ m = 3 \/ m = 4 \/ m = 5 \/ m = 6 \/ m = 7
                \/ m = 8 \/ m = 9 \/ m = 10 \/ m = 11 \/ m = 12) by lia.
    destruct C as [->|[->|[->|[->|[->|[->|[->|[->|[->|[->|[->| ->]]]]]]]]]]];
      reflexivity.
  - apply nth_error_None. simpl. lia.
Qed.

(** X20. A label of six digits is shown as the name of its month and its
    year when the month is from 01 to 12, and as its two month digits and its
    year otherwise: the month read here is the month the analyzer reads. *)
Theorem X20_formatPeriod_of_label :
  forall (label : string) (y m : Z),
    String.length label = 6%nat ->
    labelYearMonth label = Some (y, m) ->
    formatPeriod label
      = ((if ((1 <=? m)%Z && (m <=? 12)%Z)%bool
          then nth (Z.to_nat (m - 1)%Z) monthNames EmptyString
          else JS.substring label 4 6)
         ++ " " ++ JS.substring label 0 4)%string.
Proof.
  intros label y m Hlen H.
  destruct label as [|a [|b [|c [|d [|e [|f [|g rest]]]]]]]; try discriminate Hlen.
  unfold labelYearMonth, digitOf in H.
  destruct (JS.isDigit a) eqn:Ha; [|discriminate H].
  destruct (JS.isDigit b) eqn:Hb; [|discriminate H].
  destruct (JS.isDigit c) eqn:Hc; [|discriminate H].
  destruct (JS.isDigit d) eqn:Hd; [|discriminate H].
  destruct (JS.isDigit e) eqn:He; [|discriminate H].
  destruct (JS.isDigit f) eqn:Hf; [|discriminate H].
  assert (Em : m = 10 * (JS.code e - 48) + (JS.code f - 48)) by congruence.
  clear H.
  destruct (digitValue_digit e He) as [_ Be], (digitValue_digit f Hf) as [_ Bf].
  unfold formatPeriod. cbn [String.length Nat.eqb negb].
  change (JS.substring (String a (String b (String c (String d (String e (String f EmptyString)))))) 4 6)
    with (String e (String f EmptyString)).
  change (JS.substring (String a (String b (String c (String d (String e (String f EmptyString)))))) 0 4)
    with (String a (String b (String c (String d EmptyString)))).
  rewrite parseInt10_digits by (try assumption; unfold allDigits; simpl; now rewrite Hf).
  cbn [decimalFrom option_map].
  replace (10 * (10 * 0 + (JS.code e - 48)) + (JS.code f - 48)) with m by lia.
  destruct (monthNames_lookup m) as [In12 Out12].
  destruct (Z.ltb_spec (m - 1) 0) as [L0|L0].
  - destruct (Z.leb_spec 1 m); [lia|]. reflexivity.
  - destruct (Z.leb_spec 1 m); [|lia].
    destruct (Z.leb_spec m 12); cbn [andb].
    + now rewrite In12 by lia.
    + now rewrite Out12 by lia.
Qed.

Lemma X20_witness :
  formatPeriod "202403"
    = ((if ((1 <=? 3)%Z && (3 <=? 12)%Z)%bool
        then nth (Z.to_nat (3 - 1)%Z) monthNames EmptyString
        else JS.substring "202403" 4 6)
       ++ " " ++ JS.substring "202403" 0 4)%string.
Proof.
  apply (X20_formatPeriod_of_label "202403" 2024 3); reflexivity.
Defined.

Example display_samples :
  formatPeriod "202403" = "Marzo 2024"%string
  /\ formatPeriod "202400" = "00 2024"%string
  /\ formatPeriod "202413" = "13 2024"%string
  /\ formatPeriod "2024-3" = "-3 2024"%string
  /\ formatPeriod "20241a" = "Enero 2024"%string
  /\ formatPeriod "2024" = "2024"%string
  /\ getSituationDescription 3 = "Con Problemas / Riesgo Medio"%string
  /\ getSituationDescription 6 = "Situación 6"%string
  /\ getSituationColor 1 = "text-green-700 bg-green-50 border-green-200"%string
  /\ getSituationColor 0 = "text-gray-700 bg-gray-50 border-gray-200"%string.
Proof. vm_compute. repeat split; reflexivity. Qed.

(* ------------------------------------------------------------------ *)
(** ** The most recent period and the windows                           *)
(* ------------------------------------------------------------------ *)

Lemma code_lt :
  forall a b, (N_of_ascii a < N_of_ascii b)%N -> JS.code a < JS.code b.
Proof. intros a b H. unfold JS.code. lia. Qed.

Ltac compare_step a b L :=
  let E := fresh "E" in
  let O := fresh "O" in
  destruct (ascii_compare_cases a b) as [[E ->]|[[E O]|[E O]]];
  rewrite E in L; cbv iota in L; [ | apply code_lt in O | discriminate L ].

(** On labels that start with six digits, the month from 01 to 12, the order
    of the strings is the order of the months. *)
Lemma leb_monthNumber :
  forall s t ys ms yt mt,
    labelYearMonth s = Some (ys, ms) -> labelYearMonth t = Some (yt, mt) ->
    1 <= ms <= 12 -> 1 <= mt <= 12 ->
    String.leb s t = true ->
    monthNumber ys ms <= monthNumber yt mt.
Proof.
  intros s t ys ms yt mt Hs Ht Bs Bt L.
  destruct s as [|a0 [|a1 [|a2 [|a3 [|a4 [|a5 rs]]]]]]; try discriminate Hs.
  destruct t as [|b0 [|b1 [|b2 [|b3 [|b4 [|b5 rt]]]]]]; try discriminate Ht.
  unfold labelYearMonth, digitOf in Hs, Ht.
  destruct (JS.isDigit a0) eqn:A0; [|discriminate Hs].
  destruct (JS.isDigit a1) eqn:A1; [|discriminate Hs].
  destruct (JS.isDigit a2) eqn:A2; [|discriminate Hs].
  destruct (JS.isDigit a3) eqn:A3; [|discriminate Hs].
  destruct (JS.isDigit a4) eqn:A4; [|discriminate Hs].
  destruct (JS.isDigit a5) eqn:A5; [|discriminate Hs].
  destruct (JS.isDigit b0) eqn:B0; [|discriminate Ht].
  destruct (JS.isDigit b1) eqn:B1; [|discriminate Ht].
  destruct (JS.isDigit b2) eqn:B2; [|discriminate Ht].
  destruct (JS.isDigit b3) eqn:B3; [|discriminate Ht].
  destruct (JS.isDigit b4) eqn:B4; [|discriminate Ht].
  destruct (JS.isDigit b5) eqn:B5; [|discriminate Ht].
  assert (Eys : ys = 1000 * (JS.code a0 - 48) + 100 * (JS.code a1 - 48)
                     + 10 * (JS.code a2 - 48) + (JS.code a3 - 48)) by congruence.
  assert (Ems : ms = 10 * (JS.code a4 - 48) + (JS.code a5 - 48)) by congruence.
  assert (Eyt : yt = 1000 * (JS.code b0 - 48) + 100 * (JS.code b1 - 48)
                     + 10 * (JS.code b2 - 48) + (JS.code b3 - 48)) by congruence.
  assert (Emt : mt = 10 * (JS.code b4 - 48) + (JS.code b5 - 48)) by congruence.
  clear Hs Ht.
  apply isDigit_code in A0, A1, A2, A3, A4, A5, B0, B1, B2, B3, B4, B5.
  unfold monthNumber. unfold String.leb in L. cbn [String.compare] in L.
  compare_step a0 b0 L; [|lia].
  compare_step a1 b1 L; [|lia].
  compare_step a2 b2 L; [|lia].
  compare_step a3 b3 L; [|lia].
  compare_step a4 b4 L; [|lia].
  compare_step a5 b5 L; [|lia].
  lia.
Qed.

Lemma most_recent_in_window :
  forall now n h p q,
    labels_proper h -> clock_in_range now -> 2009 <= getFullYear now ->
    0 <= n <= 12 ->
    most_recent_in (periodos h) p -> In q (periodos h) ->
    isPeriodWithinMonths (getFullYear now) (getMonth now + 1) (periodo q) n = true ->
    isPeriodWithinMonths (getFullYear now) (getMonth now + 1) (periodo p) n = true.
Proof.
  intros now n h p q Hl Hc Hy Hn [Hp Hmax] Hq Hw.
  destruct (Hl p Hp) as (yp & mp & Ep & Bp).
  destruct (Hl q Hq) as (yq & mq & Eq & Bq).
  pose proof (leb_monthNumber _ _ _ _ _ _ Eq Ep Bq Bp (Hmax q Hq)) as M.
  rewrite isPeriodWithinMonths_spec in * by (try assumption; congruence).
  unfold withinTrailingMonths in *. rewrite Ep. rewrite Eq in Hw.
  apply Z.leb_le in Hw. apply Z.leb_le. lia.
Qed.

Lemma current_le_window :
  forall now n h p rest w,
    labels_proper h -> clock_in_range now -> 2009 <= getFullYear now ->
    0 <= n <= 12 ->
    sortedPeriods h = p :: rest ->
    windowWorst now n (sortedPeriods h) = Some w ->
    getWorstSituationForPeriod p <= w.
Proof.
  intros now n h p rest w Hl Hc Hy Hn Hs Hw.
  assert (P : Permutation (periodos h) (sortedPeriods h)) by apply Array_sort_perm.
  pose proof (sort_head_most_recent _ _ _ Hs) as Hp.
  destruct (windowWorst_cases now n (sortedPeriods h)) as [[_ N]|[_ (w' & S & [Hin Hmax])]];
    [congruence|].
  assert (w' = w) by congruence. subst w'.
  apply in_map_iff in Hin. destruct Hin as (q & _ & Hq).
  unfold windowPeriods in Hq. apply filter_In in Hq. destruct Hq as [Hq Hwq].
  apply (Permutation_in _ (Permutation_sym P)) in Hq.
  pose proof (most_recent_in_window now n h p q Hl Hc Hy Hn Hp Hq Hwq) as Hwp.
  apply Hmax. apply in_map. unfold windowPeriods. apply filter_In. split; [|exact Hwp].
  rewrite Hs. now left.
Qed.

(** X21. For a record whose labels are six digits with a month from 01 to 12
    and a clock of 2009 or later: a window field that is not null is at least
    the current situation, because the most recent period lies in every
    window that holds a period. *)
Theorem X21_current_situation_bounded_by_windows :
  forall (now : Clock) (c : option BCRADebtData) (h : BCRAHistoricalData),
    labels_proper h -> clock_in_range now -> 2009 <= getFullYear now ->
    let a := analyzeBCRAEligibility now c (Some h) in
    (forall w, last6MonthsWorstSituation a = Some w ->
       exists v, currentSituation a = Some v /\ v <= w)
    /\ (forall w, last12MonthsWorstSituation a = Some w ->
       exists v, currentSituation a = Some v /\ v <= w).
Proof.
  intros now c h Hl Hc Hy a. subst a.
  destruct (sortedPeriods h) as [|p rest] eqn:Hs.
  - apply Array_sort_nil in Hs. rewrite (analyze_without_period now c h Hs).
    split; intros w H; discriminate H.
  - rewrite (analyze_past_early_returns now c h p rest Hs).
    cbv zeta. cbn [last6MonthsWorstSituation last12MonthsWorstSituation currentSituation].
    rewrite <- Hs.
    split; intros w H; exists (getWorstSituationForPeriod p); (split; [reflexivity|]).
    + apply (current_le_window now 6 h p rest w); try assumption; lia.
    + apply (current_le_window now 12 h p rest w); try assumption; lia.
Qed.

Lemma X21_witness :
  let a := analyzeBCRAEligibility march2024 None (Some sampleHistory) in
  (forall w, last6MonthsWorstSituation a = Some w ->
     exists v, currentSituation a = Some v /\ v <= w)
  /\ (forall w, last12MonthsWorstSituation a = Some w ->
     exists v, currentSituation a = Some v /\ v <= w).
Proof.
  apply (X21_current_situation_bounded_by_windows march2024 None sampleHistory).
  - intros p [<-|[<-|[]]].
    + exists 2024, 1. split; [reflexivity | lia].
    + exists 2023, 12. split; [reflexivity | lia].
  - unfold clock_in_range. simpl. lia.
  - simpl. lia.
Defined.
